(** * Firesite service registry: a shallow embedding and its checked properties

    The development follows the TypeScript sources:
    - [src/node/firebase-registry.ts]  (event-store adapter, namespace resolver)
    - [src/node/node-registry.ts]      (file-backed adapter)
    - [src/browser/browser-registry.ts] (HTTP-backed adapter)
    - [src/types/index.ts]             (records and error classes)

    Conventions.  A JavaScript [number] that holds an integer is a [Z]; a
    string is a [string] of 8-bit code units; an optional field is an
    [option]; a plain object used as a dictionary is a [gmap string _] of
    its own properties (names that JavaScript would find on
    [Object.prototype] are not looked up); metadata values are strings, so
    they survive [JSON.stringify]; an [async] method is a state-passing
    function that returns either a value or the error it throws.  Timers
    ([setInterval] of the periodic cleanup and of the health updates) are
    not run: each theorem is about one call of a method. *)

From Stdlib Require Import ZArith NArith Ascii String List Bool Lia.
From stdpp Require Import base option list gmap strings pretty.

Local Open Scope Z_scope.

(** ** Namespace sanitisation ([FirebaseServiceRegistry.sanitizeUserId]) *)

Module Sanitize.

Definition dash : ascii := "-"%char.

Definition inRange (lo hi c : ascii) : bool :=
  ((N_of_ascii lo <=? N_of_ascii c) && (N_of_ascii c <=? N_of_ascii hi))%N.

(** [String.prototype.toLowerCase], one code unit at a time.  On code units
    below 256 the only letters that move into a-z are A-Z; the Latin-1
    capitals move to code units that stay outside the key class, so leaving
    them in place does not change what [sanitizeUserId] returns. *)
Definition lowerChar (c : ascii) : ascii :=
  if inRange "A" "Z" c then ascii_of_N (N_of_ascii c + 32) else c.

Fixpoint toLowerCase (s : string) : string :=
  match s with
  | EmptyString => EmptyString
  | String c s' => String (lowerChar c) (toLowerCase s')
  end.

(** The character class [a-z0-9-_]. *)
Definition inKeyClass (c : ascii) : bool :=
  inRange "a" "z" c || inRange "0" "9" c || Ascii.eqb c dash || Ascii.eqb c "_".

Definition isDash (c : ascii) : bool := Ascii.eqb c dash.

(** A regular expression is represented by its matcher: given whether the
    current position is index 0 and the input from the current position on,
    the length of the match that starts here ([0]: no match; none of the
    three patterns matches the empty string). *)
Definition Matcher := bool -> string -> nat.

(** [String.prototype.replace] with a global pattern: scan left to right;
    at a match emit the replacement and resume after the match, otherwise
    copy one code unit.  [skip] counts the code units of the current match
    that are still to be passed over. *)
Fixpoint replaceFrom (m : Matcher) (rep : string) (atStart : bool) (skip : nat)
    (s : string) : string :=
  match s with
  | EmptyString => EmptyString
  | String c s' =>
      match skip with
      | S k => replaceFrom m rep false k s'
      | O =>
          match m atStart s with
          | O => String c (replaceFrom m rep false O s')
          | S k => rep +:+ replaceFrom m rep false k s'
          end
      end
  end.

Definition replaceAll (m : Matcher) (rep s : string) : string :=
  replaceFrom m rep true O s.

(** [/[^a-z0-9-_]/g] *)
Definition reInvalid : Matcher := fun _ s =>
  match s with
  | String c _ => if inKeyClass c then O else 1%nat
  | EmptyString => O
  end.

Fixpoint leadingDashes (s : string) : nat :=
  match s with
  | String c s' => if isDash c then S (leadingDashes s') else O
  | EmptyString => O
  end.

(** [/-+/g]: the quantifier is greedy, the match is the whole run. *)
Definition reDashRun : Matcher := fun _ s => leadingDashes s.

(** [/^-|-$/g]: a dash at index 0, or else a dash that is the last code unit. *)
Definition reEdgeDash : Matcher := fun atStart s =>
  match s with
  | String c s' =>
      if isDash c then
        if atStart then 1%nat
        else match s' with EmptyString => 1%nat | _ => O end
      else O
  | EmptyString => O
  end.

Definition fallbackUserId : string := "unknown-user".

(** [a || b] on strings: the empty string is falsy. *)
Definition orElse (a b : string) : string :=
  match a with EmptyString => b | _ => a end.

Definition sanitizeUserId (userId : string) : string :=
  orElse
    (substring 0 50
       (replaceAll reEdgeDash ""
          (replaceAll reDashRun "-"
             (replaceAll reInvalid "-" (toLowerCase userId)))))
    fallbackUserId.

(** *** The sanitisation steps as the specification words them *)

Fixpoint mapStr (f : ascii -> ascii) (s : string) : string :=
  match s with
  | EmptyString => EmptyString
  | String c s' => String (f c) (mapStr f s')
  end.

(** "replace any character outside [a-z0-9-_] with -" *)
Definition specReplaceInvalid : string -> string :=
  mapStr (fun c => if inKeyClass c then c else dash).

(** "collapse repeated -": a dash followed by a dash is dropped. *)
Fixpoint specCollapse (s : string) : string :=
  match s with
  | EmptyString => EmptyString
  | String c s' =>
      if isDash c && (match s' with String c' _ => isDash c' | _ => false end)
      then specCollapse s'
      else String c (specCollapse s')
  end.

Fixpoint trimLeft (s : string) : string :=
  match s with
  | String c s' => if isDash c then trimLeft s' else s
  | EmptyString => EmptyString
  end.

Fixpoint trimRight (s : string) : string :=
  match s with
  | EmptyString => EmptyString
  | String c s' =>
      match trimRight s' with
      | EmptyString => if isDash c then EmptyString else String c EmptyString
      | r => String c r
      end
  end.

(** "trim leading/trailing -" *)
Definition specTrim (s : string) : string := trimRight (trimLeft s).

(** "truncate to 50 characters" *)
Fixpoint takeStr (n : nat) (s : string) : string :=
  match n, s with
  | S n', String c s' => String c (takeStr n' s')
  | _, _ => EmptyString
  end.

Definition specSanitize (s : string) : string :=
  match takeStr 50 (specTrim (specCollapse (specReplaceInvalid (toLowerCase s)))) with
  | EmptyString => fallbackUserId
  | r => r
  end.


(** *** Notions used to relate the two *)

(** What is left of a dash run once its first dash has been replaced. *)
Definition afterRun (s : string) : string :=
  replaceFrom reDashRun "-" false (leadingDashes s) s.

(** No two dashes in a row. *)
Fixpoint noDoubleDash (s : string) : bool :=
  match s with
  | EmptyString => true
  | String c s' =>
      negb (isDash c && (match s' with String c' _ => isDash c' | _ => false end))
      && noDoubleDash s'
  end.


(** *** Well-formed identifiers *)

(** Every code unit is in the key class. *)
Fixpoint allKeyClass (s : string) : bool :=
  match s with
  | EmptyString => true
  | String c s' => inKeyClass c && allKeyClass s'
  end.

Definition startsWithDash (s : string) : bool :=
  match s with String c _ => isDash c | EmptyString => false end.

Fixpoint endsWithDash (s : string) : bool :=
  match s with
  | EmptyString => false
  | String c EmptyString => isDash c
  | String _ s' => endsWithDash s'
  end.

Definition nonEmpty (s : string) : bool :=
  match s with EmptyString => false | String _ _ => true end.

(** The pipeline before truncation and the fallback. *)
Definition trimmed (s : string) : string :=
  specTrim (specCollapse (specReplaceInvalid (toLowerCase s))).


End Sanitize.

(** ** Records and errors ([src/types/index.ts]) *)

Inductive Status := running | stopped | error | unknown.

(** An ISO-8601 string is represented by the instant it denotes, in
    milliseconds; a string [new Date(_)] cannot parse keeps its text, and its
    [getTime()] is NaN. *)
Inductive IsoString := Iso (ms : Z) | NotADate (raw : string).

Definition getTime (d : IsoString) : option Z :=
  match d with Iso ms => Some ms | NotADate _ => None end.

Record ServiceInfo := mkServiceInfo {
  name : string;
  port : Z;
  pid : option Z;
  status : Status;
  startedAt : IsoString;
  healthUrl : option string;
  healthCheckUrl : option string;
  metadata : option (gmap string string);
  lastHealthCheck : option IsoString;
  isHealthy : option bool
}.

Record ServiceRegistry := mkServiceRegistry {
  services : gmap string ServiceInfo;
  lastUpdated : IsoString
}.

Record RegisterOptions := mkRegisterOptions {
  o_port : Z;
  o_pid : option Z;
  o_healthUrl : option string;
  o_metadata : option (gmap string string)
}.

Record DiscoverOptions := mkDiscoverOptions {
  d_timeout : option Z;
  d_retries : option Z;
  d_includeHealth : option bool
}.

Definition noDiscoverOptions : DiscoverOptions := mkDiscoverOptions None None None.

Record HealthCheckOptions := mkHealthCheckOptions {
  h_timeout : option Z;
  h_retries : option Z
}.

Definition noHealthCheckOptions : HealthCheckOptions := mkHealthCheckOptions None None.

(** The configuration after the constructor has merged the defaults in. *)
Record ServiceRegistryConfig := mkConfig {
  registryApiUrl : string;
  healthCheckTimeout : Z;
  retryAttempts : Z;
  retryDelay : Z;
  cleanupInterval : Z;
  serviceTimeout : Z
}.

Definition defaultNodeConfig : ServiceRegistryConfig :=
  mkConfig "" 5000 3 1000 60000 300000.

Definition defaultBrowserConfig : ServiceRegistryConfig :=
  mkConfig "http://localhost:3001/api/registry" 5000 3 1000 60000 300000.

(** Truthiness of an optional number and of an optional string. *)
Definition truthyNum (x : option Z) : bool :=
  match x with Some n => negb (n =? 0) | None => false end.

Definition truthyStr (x : option string) : bool :=
  match x with Some (String _ _) => true | _ => false end.

(** [ErrIO] is an error raised below the registry (file system, JSON parser,
    network, database client): its [code] property and its message. *)
Inductive RegistryError :=
  | ErrIO (code message : string)
  | ServiceNotFoundError (serviceName : string)
  | RegistryUnavailableError (message : string)
  | HealthCheckError (serviceName : string).

Definition errorMessage (e : RegistryError) : string :=
  match e with
  | ErrIO _ m => m
  | ServiceNotFoundError n => "Service '" +:+ n +:+ "' not found in registry"
  | RegistryUnavailableError m => m
  | HealthCheckError n => "Health check failed for service '" +:+ n +:+ "'"
  end.

Definition errorCode (e : RegistryError) : string :=
  match e with
  | ErrIO c _ => c
  | ServiceNotFoundError _ => "SERVICE_NOT_FOUND"
  | RegistryUnavailableError _ => "REGISTRY_UNAVAILABLE"
  | HealthCheckError _ => "HEALTH_CHECK_FAILED"
  end.

Definition isNotFound (e : RegistryError) : bool :=
  match e with ServiceNotFoundError _ => true | _ => false end.

(** [String.prototype.includes] *)
Definition includes (needle s : string) : bool :=
  match index 0 needle s with Some _ => true | None => false end.

(** The errors that say an operation is not supported where the adapter
    runs: they are told apart from other RegistryUnavailable errors by their
    message. *)
Definition isUnsupported (e : RegistryError) : bool :=
  match e with
  | RegistryUnavailableError m => includes "is not supported in browser environment" m
  | _ => false
  end.

(** ** Asynchronous methods as state-passing computations *)

Inductive Result (A : Type) := Ok (a : A) | Throw (e : RegistryError).
Arguments Ok {A} a.
Arguments Throw {A} e.

Definition M (W A : Type) : Type := W -> Result A * W.

Definition ret {W A} (a : A) : M W A := fun w => (Ok a, w).
Definition throw {W A} (e : RegistryError) : M W A := fun w => (Throw e, w).

Definition bind {W A B} (c : M W A) (k : A -> M W B) : M W B := fun w =>
  match c w with
  | (Ok a, w') => k a w'
  | (Throw e, w') => (Throw e, w')
  end.

(** [try { c } catch (e) { h e }] *)
Definition tryCatch {W A} (c : M W A) (h : RegistryError -> M W A) : M W A := fun w =>
  match c w with
  | (Ok a, w') => (Ok a, w')
  | (Throw e, w') => h e w'
  end.

Notation "'do' x <- c ; k" := (bind c (fun x => k))
  (at level 10, x name, c at level 100, k at level 200).
Notation "c ;; k" := (bind c (fun _ => k))
  (at level 100, k at level 200, right associativity).

(** What the outside world can observe of a run. *)
Inductive Event :=
  | EvFs (op : string)            (* a file-system call *)
  | EvKill (p : Z)                (* process.kill(p, 0) *)
  | EvHealthProbe (url : string)  (* fetch of a health-check URL *)
  | EvRegistryFetch (url : string)(* fetch of the remote registry snapshot *)
  | EvInitAttempt                 (* an attempt to initialise the event store *)
  | EvDb (op key : string)        (* a round trip to the event store *)
  | EvDelay (ms : Z)
  | EvWarn (message : string).

Definition isNetwork (e : Event) : bool :=
  match e with
  | EvHealthProbe _ | EvRegistryFetch _ | EvInitAttempt | EvDb _ _ => true
  | _ => false
  end.

Definition isHealthProbe (e : Event) : bool :=
  match e with EvHealthProbe _ => true | _ => false end.

(** The health-check URL that [register] derives. *)
Definition deriveHealthCheckUrl (p : Z) (h : option string) : option string :=
  if truthyStr h then Some ("http://localhost:" +:+ pretty p +:+ default "" h)
  else None.

(** ** The file-backed adapter ([NodeServiceRegistry]) *)

Module Node.

(** The registry file: absent, present with text that is not a registry
    document ([JSON.parse] or the first use of [services] throws), or a
    registry document. *)
Inductive FileState :=
  | NoFile
  | BadFile (message : string)
  | JsonFile (r : ServiceRegistry).

Record World := mkWorld {
  dirExists : bool;
  file : FileState;
  clock : Z;
  tick : nat;          (* file-system calls made so far *)
  trace : list Event   (* most recent first *)
}.

(** The environment of one run: the fault, if any, that hits the n-th
    file-system call (the [code] and the message of the error it raises);
    whether [process.kill(p, 0)] returns; what a GET of a URL answers
    ([None]: no response, [Some ok]: a response and its [ok]); the id of the
    running process. *)
Record Env := mkEnv {
  fault : nat -> option (string * string);
  killReturns : Z -> bool;
  httpGet : string -> option bool;
  processPid : Z
}.

Section WithEnv.
Variable env : Env.
Variable config : ServiceRegistryConfig.

Definition emit (e : Event) : M World unit := fun w =>
  (Ok tt, mkWorld (dirExists w) (file w) (clock w) (tick w) (e :: trace w)).

Definition now : M World Z := fun w => (Ok (clock w), w).

Definition delay (ms : Z) : M World unit := fun w =>
  (Ok tt, mkWorld (dirExists w) (file w) (clock w + Z.max 0 ms) (tick w)
            (EvDelay ms :: trace w)).

(** One file-system call: it is counted, logged, and fails if a fault is
    scheduled for it. *)
Definition fsCall (op : string) : M World unit := fun w =>
  let w' := mkWorld (dirExists w) (file w) (clock w) (S (tick w)) (EvFs op :: trace w) in
  match fault env (tick w) with
  | Some (code, message) => (Throw (ErrIO code message), w')
  | None => (Ok tt, w')
  end.

Definition enoent : RegistryError := ErrIO "ENOENT" "ENOENT: no such file or directory".

Definition ensureRegistryDir : M World unit :=
  tryCatch
    (fsCall "access" ;;
     fun w => if dirExists w then (Ok tt, w) else (Throw enoent, w))
    (fun _ =>
       fsCall "mkdir" ;;
       fun w => (Ok tt, mkWorld true (file w) (clock w) (tick w) (trace w))).

Definition loadRegistry : M World ServiceRegistry :=
  tryCatch
    (fsCall "readFile" ;;
     fun w => match file w with
              | NoFile => (Throw enoent, w)
              | BadFile m => (Throw (ErrIO "" m), w)
              | JsonFile r => (Ok r, w)
              end)
    (fun e =>
       if String.eqb (errorCode e) "ENOENT"
       then (do t <- now; ret (mkServiceRegistry ∅ (Iso t)))
       else throw e).

Definition saveRegistry (r : ServiceRegistry) : M World unit :=
  fsCall "writeFile" ;;
  fun w => if dirExists w
           then (Ok tt, mkWorld true (JsonFile r) (clock w) (tick w) (trace w))
           else (Throw enoent, w).

(** The body catches everything: no response, or no [fetch], is [false]. *)
Definition performHealthCheck (url : string) (timeout : Z) : M World bool :=
  emit (EvHealthProbe url) ;;
  ret (default false (httpGet env url)).

Definition setHealth (s : ServiceInfo) (h : bool) (t : Z) : ServiceInfo :=
  mkServiceInfo (name s) (port s) (pid s) (status s) (startedAt s) (healthUrl s)
    (healthCheckUrl s) (metadata s) (Some (Iso t)) (Some h).

Definition setService (r : ServiceRegistry) (n : string) (s : ServiceInfo) : ServiceRegistry :=
  mkServiceRegistry (<[n := s]> (services r)) (lastUpdated r).

(** [options.pid || process.pid] *)
Definition pidOrOwn (options : RegisterOptions) : Z :=
  if truthyNum (o_pid options) then default 0 (o_pid options) else processPid env.

(** The object literal [serviceInfo] of [register], built at instant [t]. *)
Definition newServiceInfo (n : string) (options : RegisterOptions) (t : Z) : ServiceInfo :=
  mkServiceInfo n (o_port options) (Some (pidOrOwn options)) running (Iso t)
    (o_healthUrl options)
    (deriveHealthCheckUrl (o_port options) (o_healthUrl options))
    (Some (default ∅ (o_metadata options)))
    (Some (Iso t)) (Some true).

Definition register (n : string) (options : RegisterOptions) : M World unit :=
  tryCatch
    (ensureRegistryDir ;;
     do registry <- loadRegistry;
     do t <- now;
     saveRegistry (mkServiceRegistry
                     (<[n := newServiceInfo n options t]> (services registry)) (Iso t)))
    (fun e => throw (RegistryUnavailableError
       ("Failed to register service '" +:+ n +:+ "': " +:+ errorMessage e))).

(** One pass of the body of the retry loop of [discover]. *)
Definition discoverOnce (n : string) (timeout : Z) (includeHealth : bool)
    : M World (option ServiceInfo) :=
  do registry <- loadRegistry;
  match services registry !! n with
  | None => ret None
  | Some service =>
      if includeHealth && truthyStr (healthCheckUrl service) then
        tryCatch
          (do h <- performHealthCheck (default "" (healthCheckUrl service)) timeout;
           do t <- now;
           let service' := setHealth service h t in
           saveRegistry (setService registry n service') ;;
           ret (Some service'))
          (fun _ => do t <- now; ret (Some (setHealth service false t)))
      else ret (Some service)
  end.

Definition discoverFailed (n : string) (retries : Z) (e : RegistryError) : RegistryError :=
  RegistryUnavailableError
    ("Failed to discover service '" +:+ n +:+ "' after " +:+ pretty (retries + 1)
       +:+ " attempts: " +:+ errorMessage e).

(** The loop [for (attempt = 0; attempt <= retries; attempt++)], by the
    number of attempts that remain. *)
Fixpoint discoverLoop (n : string) (timeout retries : Z) (includeHealth : bool)
    (remaining : nat) (lastError : option RegistryError) : M World (option ServiceInfo) :=
  match remaining with
  | O =>
      match lastError with
      | Some e => throw (discoverFailed n retries e)
      | None => ret None
      end
  | S remaining' =>
      tryCatch (discoverOnce n timeout includeHealth)
        (fun e =>
           (match remaining' with O => ret tt | S _ => delay (retryDelay config) end) ;;
           discoverLoop n timeout retries includeHealth remaining' (Some e))
  end.

Definition attemptsOf (retries : Z) : nat := Z.to_nat (retries + 1).

Definition discover (n : string) (options : DiscoverOptions) : M World (option ServiceInfo) :=
  let timeout := default (healthCheckTimeout config) (d_timeout options) in
  let retries := default (retryAttempts config) (d_retries options) in
  let includeHealth := default false (d_includeHealth options) in
  discoverLoop n timeout retries includeHealth (attemptsOf retries) None.

Definition unregister (n : string) : M World unit :=
  tryCatch
    (do registry <- loadRegistry;
     match services registry !! n with
     | None => throw (ServiceNotFoundError n)
     | Some _ =>
         do t <- now;
         saveRegistry (mkServiceRegistry (delete n (services registry)) (Iso t))
     end)
    (fun e =>
       if isNotFound e then throw e
       else throw (RegistryUnavailableError
              ("Failed to unregister service '" +:+ n +:+ "': " +:+ errorMessage e))).

(** The retry loop of [checkHealth], by the number of attempts that remain. *)
Fixpoint checkHealthLoop (n url : string) (timeout : Z) (remaining : nat) : M World bool :=
  match remaining with
  | O => throw (HealthCheckError n)
  | S remaining' =>
      tryCatch
        (do h <- performHealthCheck url timeout;
         do registry <- loadRegistry;
         match services registry !! n with
         | Some s =>
             do t <- now;
             saveRegistry (setService registry n (setHealth s h t)) ;;
             ret h
         | None => ret h
         end)
        (fun _ =>
           (match remaining' with O => ret tt | S _ => delay (retryDelay config) end) ;;
           checkHealthLoop n url timeout remaining')
  end.

Definition checkHealth (n : string) (options : HealthCheckOptions) : M World bool :=
  let timeout := default (healthCheckTimeout config) (h_timeout options) in
  let retries := default (retryAttempts config) (h_retries options) in
  do found <- discover n noDiscoverOptions;
  match found with
  | None => throw (ServiceNotFoundError n)
  | Some service =>
      if truthyStr (healthCheckUrl service)
      then checkHealthLoop n (default "" (healthCheckUrl service)) timeout (attemptsOf retries)
      else ret true
  end.

Definition listServices : M World (list ServiceInfo) :=
  tryCatch
    (do registry <- loadRegistry;
     ret (map snd (map_to_list (services registry))))
    (fun e => throw (RegistryUnavailableError
       ("Failed to list services: " +:+ errorMessage e))).

(** [serviceAge > serviceTimeout]; a NaN age compares false. *)
Definition olderThanTimeout (t : Z) (s : ServiceInfo) : bool :=
  match getTime (startedAt s) with
  | Some t0 => serviceTimeout config <? t - t0
  | None => false
  end.

(** One iteration of the loop of [cleanup] over [Object.entries]: the
    services that remain and [hasChanges]. *)
Definition cleanupEntry (t : Z) (acc : gmap string ServiceInfo * bool)
    (entry : string * ServiceInfo) : M World (gmap string ServiceInfo * bool) :=
  let '(n, service) := entry in
  if olderThanTimeout t service then
    do gone <- (if truthyNum (pid service)
                then (emit (EvKill (default 0 (pid service))) ;;
                      ret (negb (killReturns env (default 0 (pid service)))))
                else ret false);
    if gone : bool then ret (delete n (fst acc), true)
    else if truthyStr (healthCheckUrl service) then
      tryCatch
        (do h <- performHealthCheck (default "" (healthCheckUrl service)) 2000;
         if h : bool then ret acc else ret (delete n (fst acc), true))
        (fun _ => ret (delete n (fst acc), true))
    else ret acc
  else ret acc.

(** The outcome of the two probes of [cleanup] on one record, and the
    records its loop deletes. *)
Definition processProbeFails (s : ServiceInfo) : bool :=
  truthyNum (pid s) && negb (killReturns env (default 0 (pid s))).

Definition healthProbeFails (s : ServiceInfo) : bool :=
  truthyStr (healthCheckUrl s)
  && negb (default false (httpGet env (default "" (healthCheckUrl s)))).

Definition deletes (t : Z) (s : ServiceInfo) : bool :=
  olderThanTimeout t s && (processProbeFails s || healthProbeFails s).

Fixpoint cleanupLoop (t : Z) (entries : list (string * ServiceInfo))
    (acc : gmap string ServiceInfo * bool) : M World (gmap string ServiceInfo * bool) :=
  match entries with
  | [] => ret acc
  | entry :: rest => do acc' <- cleanupEntry t acc entry; cleanupLoop t rest acc'
  end.

Definition cleanup : M World unit :=
  tryCatch
    (do registry <- loadRegistry;
     do t <- now;
     do out <- cleanupLoop t (map_to_list (services registry)) (services registry, false);
     if snd out then
       do t' <- now; saveRegistry (mkServiceRegistry (fst out) (Iso t'))
     else ret tt)
    (fun e => emit (EvWarn ("Registry cleanup failed: " +:+ errorMessage e))).

(** *** Notions used to state the properties *)

(** The world after one file-system call, whatever its outcome. *)
Definition ticked (op : string) (w : World) : World :=
  mkWorld (dirExists w) (file w) (clock w) (S (tick w)) (EvFs op :: trace w).

(** What [loadRegistry] returns in a world (lemma [loadRegistry_eq]). *)
Definition loaded (w : World) : Result ServiceRegistry :=
  match fault env (tick w) with
  | Some (code, message) =>
      if String.eqb code "ENOENT"
      then Ok (mkServiceRegistry ∅ (Iso (clock w))) else Throw (ErrIO code message)
  | None =>
      match file w with
      | NoFile => Ok (mkServiceRegistry ∅ (Iso (clock w)))
      | BadFile m => Throw (ErrIO "" m)
      | JsonFile r => Ok r
      end
  end.

(** The effect of one iteration of the loop of [cleanup] on the services. *)
Definition prune (t : Z) (m : gmap string ServiceInfo) (entry : string * ServiceInfo)
    : gmap string ServiceInfo :=
  if deletes t (snd entry) then delete (fst entry) m else m.

(** The retry count that [discover] uses. *)
Definition retriesOf (options : DiscoverOptions) : Z :=
  default (retryAttempts config) (d_retries options).

(** The error, if any, with which [loadRegistry] fails when its read is the
    k-th file-system call and the file is [f]: a scheduled fault other than
    ENOENT, or a file that is not a registry document. *)
Definition readFailure (f : FileState) (k : nat) : option RegistryError :=
  match fault env k with
  | Some (code, message) =>
      if String.eqb code "ENOENT" then None else Some (ErrIO code message)
  | None => match f with BadFile m => Some (ErrIO "" m) | _ => None end
  end.


(** The records a world's registry file holds. *)
Definition stored (w : World) (n : string) : option ServiceInfo :=
  match file w with
  | JsonFile r => services r !! n
  | _ => None
  end.

End WithEnv.
End Node.

(** ** The HTTP-backed adapter ([BrowserServiceRegistry]) *)

Module Browser.

(** What a GET of the registry endpoint gives: no response, a response that
    is not [ok], or a registry document. *)
Inductive HttpReply :=
  | NetworkError (message : string)
  | HttpStatus (code : Z) (statusText : string)
  | Body (r : ServiceRegistry).

(** What a GET of a health URL gives: a response and its [ok], a TypeError
    whose message mentions CORS, or any other failure. *)
Inductive ProbeReply := Answered (ok : bool) | CorsError | ProbeFailed.

Record World := mkWorld {
  cache : gmap string (ServiceRegistry * Z);
  clock : Z;
  requests : nat;      (* registry requests made so far *)
  trace : list Event
}.

Record Env := mkEnv {
  remote : nat -> HttpReply;   (* the reply to the n-th registry request *)
  probe : string -> ProbeReply
}.

Definition CACHE_TTL : Z := 5000.

Section WithEnv.
Variable env : Env.
Variable config : ServiceRegistryConfig.

Definition emit (e : Event) : M World unit := fun w =>
  (Ok tt, mkWorld (cache w) (clock w) (requests w) (e :: trace w)).

Definition now : M World Z := fun w => (Ok (clock w), w).

Definition delay (ms : Z) : M World unit := fun w =>
  (Ok tt, mkWorld (cache w) (clock w + Z.max 0 ms) (requests w) (EvDelay ms :: trace w)).

Definition registrationNotSupported : string :=
  "Service registration is not supported in browser environment. "
  +:+ "Services should register themselves via their Node.js processes.".

Definition unregistrationNotSupported : string :=
  "Service unregistration is not supported in browser environment. "
  +:+ "Services should unregister themselves via their Node.js processes.".

Definition register (n : string) (options : RegisterOptions) : M World unit :=
  throw (RegistryUnavailableError registrationNotSupported).

Definition unregister (n : string) : M World unit :=
  throw (RegistryUnavailableError unregistrationNotSupported).

Definition httpRegistry : M World ServiceRegistry := fun w =>
  let w' := mkWorld (cache w) (clock w) (S (requests w))
              (EvRegistryFetch (registryApiUrl config) :: trace w) in
  match remote env (requests w) with
  | NetworkError m => (Throw (ErrIO "" m), w')
  | HttpStatus c t => (Throw (ErrIO "" ("HTTP " +:+ pretty c +:+ ": " +:+ t)), w')
  | Body r => (Ok r, w')
  end.

Definition cacheSet (r : ServiceRegistry) (t : Z) : M World unit := fun w =>
  (Ok tt, mkWorld (<[registryApiUrl config := (r, t)]> (cache w)) (clock w)
            (requests w) (trace w)).

Definition fetchRegistry : M World ServiceRegistry := fun w =>
  let t := clock w in
  match cache w !! registryApiUrl config with
  | Some (data, stamp) =>
      if t - stamp <? CACHE_TTL then (Ok data, w)
      else
        tryCatch
          (do r <- httpRegistry; cacheSet r t ;; ret r)
          (fun e =>
             emit (EvWarn "Using stale registry data due to fetch error:") ;; ret data) w
  | None =>
      tryCatch
        (do r <- httpRegistry; cacheSet r t ;; ret r)
        (fun e => throw (RegistryUnavailableError
           ("Failed to fetch registry from " +:+ registryApiUrl config +:+ ": "
              +:+ errorMessage e))) w
  end.

Definition performHealthCheck (url : string) (timeout : Z) : M World bool :=
  emit (EvHealthProbe url) ;;
  match probe env url with
  | Answered ok => ret ok
  | CorsError => emit (EvWarn "CORS error for health check, assuming service is running") ;; ret true
  | ProbeFailed => ret false
  end.

Definition withHealth (s : ServiceInfo) (h : bool) (t : Z) : ServiceInfo :=
  mkServiceInfo (name s) (port s) (pid s) (status s) (startedAt s) (healthUrl s)
    (healthCheckUrl s) (metadata s) (Some (Iso t)) (Some h).

Definition discoverOnce (n : string) (timeout : Z) (includeHealth : bool)
    : M World (option ServiceInfo) :=
  do registry <- fetchRegistry;
  match services registry !! n with
  | None => ret None
  | Some service =>
      if includeHealth && truthyStr (healthCheckUrl service) then
        tryCatch
          (do h <- performHealthCheck (default "" (healthCheckUrl service)) timeout;
           do t <- now;
           ret (Some (withHealth service h t)))
          (fun _ => do t <- now; ret (Some (withHealth service false t)))
      else ret (Some service)
  end.

Definition discoverFailed (n : string) (retries : Z) (e : RegistryError) : RegistryError :=
  RegistryUnavailableError
    ("Failed to discover service '" +:+ n +:+ "' after " +:+ pretty (retries + 1)
       +:+ " attempts: " +:+ errorMessage e).

Fixpoint discoverLoop (n : string) (timeout retries : Z) (includeHealth : bool)
    (remaining : nat) (lastError : option RegistryError) : M World (option ServiceInfo) :=
  match remaining with
  | O =>
      match lastError with
      | Some e => throw (discoverFailed n retries e)
      | None => ret None
      end
  | S remaining' =>
      tryCatch (discoverOnce n timeout includeHealth)
        (fun e =>
           (match remaining' with O => ret tt | S _ => delay (retryDelay config) end) ;;
           discoverLoop n timeout retries includeHealth remaining' (Some e))
  end.

Definition attemptsOf (retries : Z) : nat := Z.to_nat (retries + 1).

Definition discover (n : string) (options : DiscoverOptions) : M World (option ServiceInfo) :=
  let timeout := default (healthCheckTimeout config) (d_timeout options) in
  let retries := default (retryAttempts config) (d_retries options) in
  let includeHealth := default false (d_includeHealth options) in
  discoverLoop n timeout retries includeHealth (attemptsOf retries) None.

Fixpoint checkHealthLoop (n url : string) (timeout : Z) (remaining : nat) : M World bool :=
  match remaining with
  | O => throw (HealthCheckError n)
  | S remaining' =>
      tryCatch (performHealthCheck url timeout)
        (fun _ =>
           (match remaining' with O => ret tt | S _ => delay (retryDelay config) end) ;;
           checkHealthLoop n url timeout remaining')
  end.

Definition checkHealth (n : string) (options : HealthCheckOptions) : M World bool :=
  let timeout := default (healthCheckTimeout config) (h_timeout options) in
  let retries := default (retryAttempts config) (h_retries options) in
  do found <- discover n noDiscoverOptions;
  match found with
  | None => throw (ServiceNotFoundError n)
  | Some service =>
      if truthyStr (healthCheckUrl service)
      then checkHealthLoop n (default "" (healthCheckUrl service)) timeout (attemptsOf retries)
      else ret true
  end.

Definition listServices : M World (list ServiceInfo) :=
  tryCatch
    (do registry <- fetchRegistry;
     ret (map snd (map_to_list (services registry))))
    (fun e => throw (RegistryUnavailableError
       ("Failed to list services: " +:+ errorMessage e))).

(** [this.cache.clear()] *)
Definition cleanup : M World unit := fun w =>
  (Ok tt, mkWorld ∅ (clock w) (requests w) (trace w)).

(** *** Notions used to state the properties *)

(** What [performHealthCheck] answers for a URL. *)
Definition verdict (url : string) : bool :=
  match probe env url with
  | Answered ok => ok
  | CorsError => true
  | ProbeFailed => false
  end.

(** The cache holds no entry for the endpoint, or one that has expired. *)
Definition cacheExpired (w : World) : Prop :=
  match cache w !! registryApiUrl config with
  | Some (_, stamp) => CACHE_TTL <= clock w - stamp
  | None => True
  end.

(** The world after a registry request that succeeded with [r]. *)
Definition fetched (r : ServiceRegistry) (w : World) : World :=
  mkWorld (<[registryApiUrl config := (r, clock w)]> (cache w)) (clock w)
    (S (requests w)) (EvRegistryFetch (registryApiUrl config) :: trace w).

(** A reply that makes [fetch] of the registry fail. *)
Definition replyFails (r : HttpReply) : bool :=
  match r with Body _ => false | _ => true end.

End WithEnv.
End Browser.

(** ** The event-store adapter ([FirebaseServiceRegistry]) *)

Module Firebase.

Record Presence := mkPresence {
  online : bool;
  lastSeen : IsoString;
  p_pid : option Z;
  p_userId : string;
  p_hostname : string
}.

(** The adapter object ([isInitialized], the two database references,
    [currentServiceName], the embedded file-backed adapter with its world),
    the remote database (services and presence of this namespace, the armed
    disconnect hooks) and the counters of the run. *)
Record World := mkWorld {
  isInitialized : bool;
  refsSet : bool;
  currentServiceName : option string;
  servicesDb : gmap string ServiceInfo;
  presenceDb : gmap string Presence;
  disconnectHooks : list string;
  initAttempts : nat;
  dbCalls : nat;
  fallback : Node.World;
  trace : list Event
}.

(** The environment: whether the n-th initialisation attempt succeeds, the
    fault (its message) that hits the n-th database round trip, the raw
    identity that the resolution order of [getUserId] selects, the host, and
    the environment of the process (shared with the embedded file-backed
    adapter). *)
Record Env := mkEnv {
  initSucceeds : nat -> bool;
  dbFault : nat -> option string;
  identity : string;
  hostname : string;
  nodeVersion : string;
  platform : string;
  node : Node.Env
}.

Section WithEnv.
Variable env : Env.
Variable config : ServiceRegistryConfig.

Definition update (w : World) (ini refs : bool) (cur : option string)
    (sv : gmap string ServiceInfo) (pr : gmap string Presence) (hooks : list string) : World :=
  mkWorld ini refs cur sv pr hooks (initAttempts w) (dbCalls w) (fallback w) (trace w).

Definition emit (e : Event) : M World unit := fun w =>
  (Ok tt, mkWorld (isInitialized w) (refsSet w) (currentServiceName w) (servicesDb w)
            (presenceDb w) (disconnectHooks w) (initAttempts w) (dbCalls w) (fallback w)
            (e :: trace w)).

Definition now : M World Z := fun w => (Ok (Node.clock (fallback w)), w).

(** Run a method of the embedded file-backed adapter. *)
Definition viaFallback {A} (c : M Node.World A) : M World A := fun w =>
  let '(r, fw) := c (fallback w) in
  (r, mkWorld (isInitialized w) (refsSet w) (currentServiceName w) (servicesDb w)
        (presenceDb w) (disconnectHooks w) (initAttempts w) (dbCalls w) fw (trace w)).

(** Every path of [getUserId] ends in [sanitizeUserId]. *)
Definition getUserId : string := Sanitize.sanitizeUserId (identity env).

(** [initializeFirebase]: nothing when already initialised; otherwise one
    attempt, which either sets the references and the flag or logs a warning
    and leaves the flag [false].  The steps of an attempt (configuration,
    SDK import, credentials, references) succeed or fail as a whole. *)
Definition initializeFirebase : M World unit := fun w =>
  if isInitialized w then (Ok tt, w)
  else if initSucceeds env (initAttempts w) then
    (Ok tt, mkWorld true true (currentServiceName w) (servicesDb w) (presenceDb w)
              (disconnectHooks w) (S (initAttempts w)) (dbCalls w) (fallback w)
              (EvInitAttempt :: trace w))
  else
    (Ok tt, mkWorld false (refsSet w) (currentServiceName w) (servicesDb w) (presenceDb w)
              (disconnectHooks w) (S (initAttempts w)) (dbCalls w) (fallback w)
              (EvWarn "Failed to initialize Firebase, falling back to file-based registry:"
                 :: EvInitAttempt :: trace w)).

(** [!this.isInitialized || !this.servicesRef || !this.presenceRef] *)
Definition usesFallback (w : World) : bool := negb (isInitialized w) || negb (refsSet w).

(** One round trip to the database: counted, logged, and failing if a fault
    is scheduled for it. *)
Definition dbCall (op key : string) : M World unit := fun w =>
  let w' := mkWorld (isInitialized w) (refsSet w) (currentServiceName w) (servicesDb w)
              (presenceDb w) (disconnectHooks w) (initAttempts w) (S (dbCalls w))
              (fallback w) (EvDb op key :: trace w) in
  match dbFault env (dbCalls w) with
  | Some message => (Throw (ErrIO "" message), w')
  | None => (Ok tt, w')
  end.

Definition setServiceDb (n : string) (s : ServiceInfo) : M World unit :=
  dbCall "set" ("services/" +:+ n) ;;
  fun w => (Ok tt, update w (isInitialized w) (refsSet w) (currentServiceName w)
                     (<[n := s]> (servicesDb w)) (presenceDb w) (disconnectHooks w)).

Definition removeServiceDb (n : string) : M World unit :=
  dbCall "remove" ("services/" +:+ n) ;;
  fun w => (Ok tt, update w (isInitialized w) (refsSet w) (currentServiceName w)
                     (delete n (servicesDb w)) (presenceDb w) (disconnectHooks w)).

Definition getServiceDb (n : string) : M World (option ServiceInfo) :=
  dbCall "once" ("services/" +:+ n) ;; fun w => (Ok (servicesDb w !! n), w).

Definition getAllServicesDb : M World (gmap string ServiceInfo) :=
  dbCall "once" "services" ;; fun w => (Ok (servicesDb w), w).

Definition getPresenceDb (n : string) : M World (option Presence) :=
  dbCall "once" ("presence/" +:+ n) ;; fun w => (Ok (presenceDb w !! n), w).

Definition setPresenceDb (n : string) (p : Presence) : M World unit :=
  dbCall "set" ("presence/" +:+ n) ;;
  fun w => (Ok tt, update w (isInitialized w) (refsSet w) (currentServiceName w)
                     (servicesDb w) (<[n := p]> (presenceDb w)) (disconnectHooks w)).

Definition removePresenceDb (n : string) : M World unit :=
  dbCall "remove" ("presence/" +:+ n) ;;
  fun w => (Ok tt, update w (isInitialized w) (refsSet w) (currentServiceName w)
                     (servicesDb w) (delete n (presenceDb w)) (disconnectHooks w)).

Definition armDisconnect (n : string) : M World unit :=
  dbCall "onDisconnect" ("presence/" +:+ n) ;;
  fun w => (Ok tt, update w (isInitialized w) (refsSet w) (currentServiceName w)
                     (servicesDb w) (presenceDb w) (n :: disconnectHooks w)).

Definition setCurrent (n : string) : M World unit := fun w =>
  (Ok tt, update w (isInitialized w) (refsSet w) (Some n) (servicesDb w) (presenceDb w)
            (disconnectHooks w)).

(** [ref.update({isHealthy, lastHealthCheck})] on a service record. *)
Definition updateHealthDb (n : string) (h : bool) (t : Z) : M World unit :=
  dbCall "update" ("services/" +:+ n) ;;
  fun w => (Ok tt, update w (isInitialized w) (refsSet w) (currentServiceName w)
                     (match servicesDb w !! n with
                      | Some s => <[n := Node.setHealth s h t]> (servicesDb w)
                      | None => servicesDb w
                      end)
                     (presenceDb w) (disconnectHooks w)).

Definition performHealthCheck (url : string) (timeout : Z) : M World bool :=
  emit (EvHealthProbe url) ;;
  ret (default false (Node.httpGet (node env) url)).

(** The metadata of a record registered in the event store: the caller's
    entries, overlaid with the five entries the adapter adds. *)
Definition registeredMetadata (m : option (gmap string string)) (t : Z) : gmap string string :=
  <["sessionId" := getUserId +:+ "-" +:+ pretty t]>
    (<["platform" := platform env]>
       (<["nodeVersion" := nodeVersion env]>
          (<["hostname" := hostname env]>
             (<["userId" := getUserId]> (default ∅ m))))).

(** The object literal [serviceInfo] of [register], built at instant [t]. *)
Definition newServiceInfo (n : string) (options : RegisterOptions) (t : Z) : ServiceInfo :=
  mkServiceInfo n (o_port options) (Some (Node.pidOrOwn (node env) options)) running (Iso t)
    (o_healthUrl options)
    (deriveHealthCheckUrl (o_port options) (o_healthUrl options))
    (Some (registeredMetadata (o_metadata options) t))
    (Some (Iso t)) (Some true).

(** [startHealthUpdates], the last step of the source, only arms a timer. *)
Definition register (n : string) (options : RegisterOptions) : M World unit :=
  initializeFirebase ;;
  fun w =>
    if usesFallback w then viaFallback (Node.register (node env) n options) w
    else
      tryCatch
        (do t <- now;
         setServiceDb n (newServiceInfo n options t) ;;
         armDisconnect n ;;
         setPresenceDb n (mkPresence true (Iso t) (Some (Node.pidOrOwn (node env) options))
                            getUserId (hostname env)) ;;
         setCurrent n)
        (fun e => throw (RegistryUnavailableError
           ("Failed to register service '" +:+ n +:+ "' with Firebase: "
              +:+ errorMessage e))) w.

Definition presentOnline (p : option Presence) : bool :=
  match p with Some q => online q | None => false end.

Definition discover (n : string) (options : DiscoverOptions) : M World (option ServiceInfo) :=
  initializeFirebase ;;
  fun w =>
    if usesFallback w then viaFallback (Node.discover (node env) config n options) w
    else
      tryCatch
        (do snapshot <- getServiceDb n;
         match snapshot with
         | None => ret None
         | Some service =>
             do presence <- getPresenceDb n;
             if presentOnline presence then
               if default false (d_includeHealth options) && truthyStr (healthCheckUrl service)
               then
                 tryCatch
                   (do h <- performHealthCheck (default "" (healthCheckUrl service))
                              (if truthyNum (d_timeout options)
                               then default 0 (d_timeout options)
                               else healthCheckTimeout config);
                    do t <- now;
                    updateHealthDb n h t ;;
                    ret (Some (Node.setHealth service h t)))
                   (fun _ => do t <- now; ret (Some (Node.setHealth service false t)))
               else ret (Some service)
             else removeServiceDb n ;; ret None
         end)
        (fun e => throw (RegistryUnavailableError
           ("Failed to discover service '" +:+ n +:+ "': " +:+ errorMessage e))) w.

Definition unregister (n : string) : M World unit :=
  initializeFirebase ;;
  fun w =>
    if usesFallback w then viaFallback (Node.unregister (node env) n) w
    else
      tryCatch
        (removeServiceDb n ;; removePresenceDb n)
        (fun e => throw (RegistryUnavailableError
           ("Failed to unregister service '" +:+ n +:+ "': " +:+ errorMessage e))) w.

Definition checkHealth (n : string) (options : HealthCheckOptions) : M World bool :=
  do found <- discover n noDiscoverOptions;
  match found with
  | None => throw (ServiceNotFoundError n)
  | Some service =>
      if truthyStr (healthCheckUrl service)
      then performHealthCheck (default "" (healthCheckUrl service))
             (if truthyNum (h_timeout options) then default 0 (h_timeout options)
              else healthCheckTimeout config)
      else ret true
  end.

(** The loop of [listServices] over the entries of the snapshot. *)
Fixpoint listLoop (entries : list (string * ServiceInfo)) (acc : list ServiceInfo)
    : M World (list ServiceInfo) :=
  match entries with
  | [] => ret acc
  | (n, s) :: rest =>
      do presence <- getPresenceDb n;
      if presentOnline presence then listLoop rest (acc ++ [s])
      else removeServiceDb n ;; listLoop rest acc
  end.

Definition listServices : M World (list ServiceInfo) :=
  initializeFirebase ;;
  fun w =>
    if usesFallback w then viaFallback (Node.listServices (node env)) w
    else
      tryCatch
        (do all <- getAllServicesDb; listLoop (map_to_list all) [])
        (fun e => throw (RegistryUnavailableError
           ("Failed to list services: " +:+ errorMessage e))) w.

Fixpoint cleanupLoop (l : list ServiceInfo) : M World unit :=
  match l with
  | [] => ret tt
  | s :: rest =>
      (if truthyStr (healthCheckUrl s) then
         tryCatch
           (do h <- performHealthCheck (default "" (healthCheckUrl s)) 2000;
            if h : bool then ret tt else unregister (name s))
           (fun _ => unregister (name s))
       else ret tt) ;;
      cleanupLoop rest
  end.

Definition cleanup : M World unit :=
  do l <- listServices; cleanupLoop l.

(** *** Notions used to state the properties *)

(** Two worlds agree on the initialisation state; a computation that never
    changes it. *)
Definition sameInit (w w' : World) : Prop :=
  isInitialized w' = isInitialized w /\ refsSet w' = refsSet w
  /\ initAttempts w' = initAttempts w.

Definition keepsInit {A} (c : M World A) : Prop := forall w, sameInit w (snd (c w)).

(** The adapter runs against the event store. *)
Definition primary (w : World) : Prop := isInitialized w = true /\ refsSet w = true.

(** The world after one round trip to the database. *)
Definition dbTicked (op key : string) (w : World) : World :=
  mkWorld (isInitialized w) (refsSet w) (currentServiceName w) (servicesDb w)
    (presenceDb w) (disconnectHooks w) (initAttempts w) (S (dbCalls w))
    (fallback w) (EvDb op key :: trace w).

(** The world after a failed initialisation attempt followed by a run of
    the embedded file-backed adapter that left [fw]. *)
Definition onFallback (w : World) (fw : Node.World) : World :=
  mkWorld false (refsSet w) (currentServiceName w) (servicesDb w) (presenceDb w)
    (disconnectHooks w) (S (initAttempts w)) (dbCalls w) fw
    (EvWarn "Failed to initialize Firebase, falling back to file-based registry:"
       :: EvInitAttempt :: trace w).

(** No round trip to the database fails. *)
Definition noDbFaults : Prop := forall k, dbFault env k = None.

(** An entry of a services snapshot whose presence record says online. *)
Definition onlineIn (pr : gmap string Presence) (e : string * ServiceInfo) : bool :=
  presentOnline (pr !! e.1).

(** A record passes the probe of [cleanup]: it has no health-check URL, or
    its endpoint answers [ok]. *)
Definition passesProbe (s : ServiceInfo) : bool :=
  negb (truthyStr (healthCheckUrl s))
  || default false (Node.httpGet (node env) (default "" (healthCheckUrl s))).

(** Every record is stored under its own name, as [register] stores it. *)
Definition wellKeyed (m : gmap string ServiceInfo) : Prop :=
  forall k s, m !! k = Some s -> name s = k.

(** The four operations that start with [initializeFirebase], and the world
    each leaves behind. *)
Inductive Call :=
  | CallRegister (n : string) (options : RegisterOptions)
  | CallDiscover (n : string) (options : DiscoverOptions)
  | CallUnregister (n : string)
  | CallListServices.

Definition after (c : Call) (w : World) : World :=
  match c with
  | CallRegister n options => snd (register n options w)
  | CallDiscover n options => snd (discover n options w)
  | CallUnregister n => snd (unregister n w)
  | CallListServices => snd (listServices w)
  end.

End WithEnv.
End Firebase.

(** ** Concrete worlds used to run the model *)

Module Examples.

(** A process environment without faults where every probed process exists
    and every health endpoint answers with a status that is not [ok]. *)
Definition envProcessUpHealthDown : Node.Env :=
  Node.mkEnv (fun _ => None) (fun _ => true) (fun _ => Some false) 4242.

(** A process environment without faults where no probed process exists and
    every health endpoint answers [ok]. *)
Definition envProcessDownHealthUp : Node.Env :=
  Node.mkEnv (fun _ => None) (fun _ => false) (fun _ => Some true) 4242.

Definition svcA : ServiceInfo :=
  mkServiceInfo "svc-a" 3000 (Some 1234) running (Iso 0) (Some "/health")
    (Some "http://localhost:3000/health") (Some ∅) (Some (Iso 0)) (Some true).

(** A record written without a process id and without a health path. *)
Definition legacy : ServiceInfo :=
  mkServiceInfo "legacy" 8080 None running (Iso 0) None None None None None.

Definition fileWith (l : list (string * ServiceInfo)) (t : Z) : Node.World :=
  Node.mkWorld true (Node.JsonFile (mkServiceRegistry (list_to_map l) (Iso 0))) t 0 [].

(** Both worlds are read 400 s after the records were written; the default
    service timeout is 300 s. *)
(** A record written one second before the worlds below are read, whose
    process id names no process. *)
Definition young : ServiceInfo :=
  mkServiceInfo "young" 3001 (Some 999) running (Iso 399000) None None None None None.

Definition worldYoung : Node.World := fileWith [("young", young)] 400000.

Definition worldSvcA : Node.World := fileWith [("svc-a", svcA)] 400000.

(** A process environment in which the second file-system call fails and
    every health endpoint answers [ok]. *)
Definition envSecondCallFails : Node.Env :=
  Node.mkEnv (fun k => if Nat.eqb k 1 then Some ("EACCES", "permission denied") else None)
    (fun _ => true) (fun _ => Some true) 4242.

Definition worldLegacy : Node.World := fileWith [("legacy", legacy)] 400000.

Definition optionsA : RegisterOptions :=
  mkRegisterOptions 3000 (Some 1234) (Some "/health") (Some {[ "version" := "1.0.0" ]}).

Definition emptyDisk : Node.World := Node.mkWorld true Node.NoFile 1000 0 [].

(** A registry file whose text is not JSON. *)
Definition corruptDisk : Node.World :=
  Node.mkWorld true (Node.BadFile "Unexpected token } in JSON") 1000 0 [].

Definition quietProcess : Node.Env :=
  Node.mkEnv (fun _ => None) (fun _ => true) (fun _ => Some true) 4242.

(** An event store that can be reached, and one that cannot. *)
Definition storeUp : Firebase.Env :=
  Firebase.mkEnv (fun _ => true) (fun _ => None) "Dev.User" "devbox" "v20.11.0" "linux"
    quietProcess.

Definition storeDown : Firebase.Env :=
  Firebase.mkEnv (fun _ => false) (fun _ => None) "Dev.User" "devbox" "v20.11.0" "linux"
    quietProcess.

(** An adapter that has not been used yet, over a given disk. *)
Definition freshAdapter (disk : Node.World) : Firebase.World :=
  Firebase.mkWorld false false None ∅ ∅ [] 0 0 disk [].

(** An adapter that has initialised against an empty namespace. *)
Definition connected : Firebase.World :=
  Firebase.mkWorld true true None ∅ ∅ [] 1 0 emptyDisk [EvInitAttempt].


(** An event store whose second round trip fails. *)
Definition storeSecondCallFails : Firebase.Env :=
  Firebase.mkEnv (fun _ => true)
    (fun k => if Nat.eqb k 1 then Some "PERMISSION_DENIED" else None)
    "Dev.User" "devbox" "v20.11.0" "linux" quietProcess.

(** An event store that can be reached, beside health endpoints that answer
    with a status that is not [ok]. *)
Definition storeUpHealthDown : Firebase.Env :=
  Firebase.mkEnv (fun _ => true) (fun _ => None) "Dev.User" "devbox" "v20.11.0" "linux"
    envProcessUpHealthDown.

(** An initialised adapter whose namespace holds the record of svc-a with
    an online presence, and the record of legacy without a presence. *)
Definition presentA : Firebase.Presence :=
  Firebase.mkPresence true (Iso 0) (Some 1234) "dev-user" "devbox".

Definition populated : Firebase.World :=
  Firebase.mkWorld true true None {[ "svc-a" := svcA; "legacy" := legacy ]}
    {[ "svc-a" := presentA ]} [] 1 0 emptyDisk [EvInitAttempt].

(** A remote registry endpoint that serves one record without a health
    path, and a browser adapter with an empty cache. *)
Definition remoteLegacy : Browser.Env :=
  Browser.mkEnv (fun _ => Browser.Body (mkServiceRegistry {[ "legacy" := legacy ]} (Iso 0)))
    (fun _ => Browser.Answered true).

Definition coldBrowser : Browser.World := Browser.mkWorld ∅ 1000 0 [].

(** An endpoint that never answers, a probe that fails with a CORS error,
    and a browser adapter whose cache holds an expired snapshot. *)
Definition remoteDown : Browser.Env :=
  Browser.mkEnv (fun _ => Browser.NetworkError "Failed to fetch") (fun _ => Browser.CorsError).

Definition snapshotA : ServiceRegistry := mkServiceRegistry {[ "svc-a" := svcA ]} (Iso 0).


(** An endpoint that serves that snapshot, with health probes that fail
    with a CORS error. *)
Definition remoteA : Browser.Env :=
  Browser.mkEnv (fun _ => Browser.Body snapshotA) (fun _ => Browser.CorsError).

End Examples.

(** * Properties *)

(** ** Stepping through a computation *)

Lemma bind_ok {W A B} (c : M W A) (k : A -> M W B) w a w1 :
  c w = (Ok a, w1) -> bind c k w = k a w1.
Proof. intros H. unfold bind. by rewrite H. Qed.

Lemma bind_throw {W A B} (c : M W A) (k : A -> M W B) w e w1 :
  c w = (Throw e, w1) -> bind c k w = (Throw e, w1).
Proof. intros H. unfold bind. by rewrite H. Qed.

Lemma tryCatch_ok {W A} (c : M W A) h w a w1 :
  c w = (Ok a, w1) -> tryCatch c h w = (Ok a, w1).
Proof. intros H. unfold tryCatch. by rewrite H. Qed.

Lemma tryCatch_throw {W A} (c : M W A) h w e w1 :
  c w = (Throw e, w1) -> tryCatch c h w = h e w1.
Proof. intros H. unfold tryCatch. by rewrite H. Qed.


(** ** Sanitisation *)

Module SanitizeFacts.
Import Sanitize.

Lemma isDash_true c : isDash c = true -> c = dash.
Proof. unfold isDash. intros H. apply Ascii.eqb_eq in H. exact H. Qed.

Lemma replaceInvalid_map b s :
  replaceFrom reInvalid "-" b O s = specReplaceInvalid s.
Proof.
  unfold specReplaceInvalid.
  revert b. induction s as [|c s IH]; intros b; simpl; [done|].
  destruct (inKeyClass c); simpl; rewrite IH; reflexivity.
Qed.

Lemma reDashRun_atStart b k s :
  replaceFrom reDashRun "-" b k s = replaceFrom reDashRun "-" false k s.
Proof. destruct s, k; reflexivity. Qed.

Lemma afterRun_dash c s : isDash c = true -> afterRun (String c s) = afterRun s.
Proof. intros H. unfold afterRun. simpl. by rewrite H. Qed.

Lemma afterRun_other s :
  leadingDashes s = O -> afterRun s = replaceFrom reDashRun "-" false O s.
Proof. intros H. unfold afterRun. by rewrite H. Qed.

Lemma replace_dash_head c s :
  isDash c = true ->
  replaceFrom reDashRun "-" false O (String c s) = String dash (afterRun s).
Proof. intros H. unfold afterRun. simpl. by rewrite H. Qed.

Lemma collapse_runs s :
  replaceFrom reDashRun "-" false O s = specCollapse s.
Proof.
  induction s as [|c s IH]; [done|].
  destruct (isDash c) eqn:Hc.
  - rewrite replace_dash_head by done.
    change (specCollapse (String c s)) with
      (if isDash c && (match s with String c' _ => isDash c' | _ => false end)
       then specCollapse s else String c (specCollapse s)).
    rewrite Hc. simpl andb. apply isDash_true in Hc as ->.
    destruct s as [|c' s']; [done|].
    destruct (isDash c') eqn:Hc'.
    + rewrite <- IH, replace_dash_head, afterRun_dash by done. done.
    + rewrite afterRun_other by (simpl; by rewrite Hc'). by rewrite IH.
  - simpl. rewrite Hc. simpl. by rewrite IH.
Qed.

Lemma specCollapse_head c s :
  exists t, specCollapse (String c s) = String c t.
Proof.
  revert c. induction s as [|c' s IH]; intros c.
  - simpl. rewrite andb_false_r. by eexists.
  - change (specCollapse (String c (String c' s))) with
      (if isDash c && isDash c' then specCollapse (String c' s)
       else String c (specCollapse (String c' s))).
    destruct (isDash c) eqn:Hc, (isDash c') eqn:Hc'; simpl; try by eexists.
    apply isDash_true in Hc as ->. apply isDash_true in Hc' as ->. apply IH.
Qed.

Lemma specCollapse_noDouble s : noDoubleDash (specCollapse s) = true.
Proof.
  induction s as [|c s IH]; [done|].
  change (specCollapse (String c s)) with
    (if isDash c && (match s with String c' _ => isDash c' | _ => false end)
     then specCollapse s else String c (specCollapse s)).
  destruct (isDash c && _) eqn:Hd; [done|].
  simpl. rewrite IH, andb_true_r.
  destruct s as [|c' s']; [by rewrite andb_false_r|].
  destruct (specCollapse_head c' s') as [t ->]. by rewrite Hd.
Qed.

Lemma trimRight_head c s : isDash c = false -> exists t, trimRight (String c s) = String c t.
Proof. intros H. simpl. rewrite H. destruct (trimRight s); by eexists. Qed.

Lemma edge_tail s :
  noDoubleDash s = true -> replaceFrom reEdgeDash "" false O s = trimRight s.
Proof.
  induction s as [|c s IH]; [done|]. intros Hn.
  simpl in Hn. apply andb_true_iff in Hn as [Hh Ht]. specialize (IH Ht).
  simpl. destruct (isDash c) eqn:Hc.
  - destruct s as [|c' s']; [done|].
    simpl in Hh. rewrite negb_true_iff in Hh.
    destruct (trimRight_head c' s' Hh) as [t Ht'].
    rewrite IH, Ht'. done.
  - rewrite IH. destruct (trimRight s); done.
Qed.

Lemma edge_trim s :
  noDoubleDash s = true -> replaceAll reEdgeDash "" s = specTrim s.
Proof.
  intros Hn. unfold replaceAll, specTrim. destruct s as [|c s]; [done|].
  simpl in Hn. apply andb_true_iff in Hn as [Hh Ht].
  simpl replaceFrom. simpl trimLeft. destruct (isDash c) eqn:Hc.
  - simpl. rewrite edge_tail by done.
    destruct s as [|c' s']; [done|]. simpl in Hh. rewrite negb_true_iff in Hh.
    simpl trimLeft. by rewrite Hh.
  - rewrite edge_tail by done. simpl. rewrite Hc. destruct (trimRight s); done.
Qed.

Lemma substring_take n s : substring 0 n s = takeStr n s.
Proof.
  revert s. induction n as [|n IH]; intros [|c s]; simpl; try done. by rewrite IH.
Qed.

Lemma takeStr_length n s : (String.length (takeStr n s) <= n)%nat.
Proof.
  revert s. induction n as [|n IH]; intros [|c s]; simpl; try lia.
  specialize (IH s). lia.
Qed.

Theorem sanitize_refines_spec s : sanitizeUserId s = specSanitize s.
Proof.
  unfold sanitizeUserId, specSanitize, replaceAll at 2 3.
  rewrite replaceInvalid_map, reDashRun_atStart, collapse_runs.
  rewrite edge_trim by apply specCollapse_noDouble.
  rewrite substring_take. unfold orElse.
  destruct (takeStr 50 _); reflexivity.
Qed.

Lemma sanitize_length s : (String.length (sanitizeUserId s) <= 50)%nat.
Proof.
  rewrite sanitize_refines_spec. unfold specSanitize.
  pose proof (takeStr_length 50 (specTrim (specCollapse (specReplaceInvalid (toLowerCase s))))) as H.
  destruct (takeStr 50 _); [vm_compute; lia | exact H].
Qed.





End SanitizeFacts.

(** ** The file-backed adapter *)

Module NodeFacts.
Import Node.

Section WithEnv.
Variable env : Env.
Variable config : ServiceRegistryConfig.

Lemma loadRegistry_eq w : loadRegistry env w = (loaded env w, ticked "readFile" w).
Proof.
  unfold loadRegistry, loaded, tryCatch, bind, fsCall, now, ret, throw, ticked.
  destruct (fault env (tick w)) as [[c m]|]; simpl.
  - destruct (String.eqb c "ENOENT"); reflexivity.
  - destruct (file w); reflexivity.
Qed.

(** [saveRegistry] either stores the document or leaves the file alone. *)
Lemma saveRegistry_file r w :
  file (snd (saveRegistry env r w)) = JsonFile r \/
  file (snd (saveRegistry env r w)) = file w.
Proof.
  unfold saveRegistry, bind, fsCall.
  destruct (fault env (tick w)) as [[c m]|]; simpl; [by right|].
  destruct (dirExists w); simpl; [by left | by right].
Qed.

Lemma performHealthCheck_eq url timeout w :
  performHealthCheck env url timeout w =
  (Ok (default false (httpGet env url)),
   mkWorld (dirExists w) (file w) (clock w) (tick w) (EvHealthProbe url :: trace w)).
Proof. reflexivity. Qed.

(** *** The loop of [cleanup] *)

Lemma cleanupEntry_eq t acc entry w :
  exists w',
    cleanupEntry env config t acc entry w =
      (Ok (prune env config t (fst acc) entry, snd acc || deletes env config t (snd entry)), w')
    /\ file w' = file w /\ dirExists w' = dirExists w /\ clock w' = clock w
    /\ tick w' = tick w.
Proof.
  destruct entry as [n s], acc as [m ch].
  unfold cleanupEntry, prune, deletes, processProbeFails, healthProbeFails. simpl.
  destruct (olderThanTimeout config t s); simpl;
    [|eexists; rewrite orb_false_r; by repeat split].
  unfold bind, tryCatch, ret, emit.
  destruct (truthyNum (pid s)); simpl.
  - destruct (killReturns env (default 0 (pid s))); simpl.
    + destruct (truthyStr (healthCheckUrl s)); simpl.
      * destruct (default false (httpGet env (default "" (healthCheckUrl s)))); simpl;
          eexists; rewrite ?orb_false_r, ?orb_true_r; by repeat split.
      * eexists; rewrite orb_false_r; by repeat split.
    + eexists; rewrite orb_true_r; by repeat split.
  - destruct (truthyStr (healthCheckUrl s)); simpl.
    + destruct (default false (httpGet env (default "" (healthCheckUrl s)))); simpl;
        eexists; rewrite ?orb_false_r, ?orb_true_r; by repeat split.
    + eexists; rewrite orb_false_r; by repeat split.
Qed.

Lemma cleanupLoop_eq t entries acc w :
  exists w',
    cleanupLoop env config t entries acc w =
      (Ok (foldl (prune env config t) (fst acc) entries,
           snd acc || existsb (fun e => deletes env config t (snd e)) entries), w')
    /\ file w' = file w /\ dirExists w' = dirExists w /\ clock w' = clock w
    /\ tick w' = tick w.
Proof.
  revert acc w. induction entries as [|entry rest IH]; intros acc w; simpl.
  - exists w. unfold ret. rewrite orb_false_r. destruct acc. by repeat split.
  - destruct (cleanupEntry_eq t acc entry w) as (w1 & E1 & F1 & D1 & C1 & T1).
    unfold bind. rewrite E1.
    destruct (IH (prune env config t (fst acc) entry, snd acc || deletes env config t (snd entry)) w1)
      as (w2 & E2 & F2 & D2 & C2 & T2).
    exists w2. rewrite E2. simpl. rewrite orb_assoc.
    repeat split; congruence.
Qed.

(** A record survives the loop exactly when the loop does not delete it. *)
Lemma foldl_prune_other t entries m n :
  (forall s, (n, s) ∉ entries) -> foldl (prune env config t) m entries !! n = m !! n.
Proof.
  revert m. induction entries as [|[k s] rest IH]; intros m Hn; [done|].
  simpl. rewrite IH.
  - unfold prune. simpl. destruct (deletes env config t s); [|done].
    apply lookup_delete_ne. intros ->. apply (Hn s). left.
  - intros s' Hin. apply (Hn s'). by right.
Qed.

Lemma foldl_prune_gone t entries m n :
  m !! n = None -> foldl (prune env config t) m entries !! n = None.
Proof.
  revert m. induction entries as [|[k s] rest IH]; intros m Hm; [done|].
  simpl. apply IH. unfold prune. simpl.
  destruct (deletes env config t s); [|done].
  rewrite lookup_delete_None. by right.
Qed.

Lemma foldl_prune_lookup t (m : gmap string ServiceInfo) n :
  foldl (prune env config t) m (map_to_list m) !! n =
  match m !! n with
  | Some s => if deletes env config t s then None else Some s
  | None => None
  end.
Proof.
  assert (forall entries m0,
    NoDup (map fst entries) ->
    forall s, (n, s) ∈ entries -> m0 !! n = Some s ->
    foldl (prune env config t) m0 entries !! n = if deletes env config t s then None else Some s) as H.
  { induction entries as [|[k s'] rest IH]; intros m0 Hnd s Hin Hm0.
    - by apply elem_of_nil in Hin.
    - simpl in Hnd. apply NoDup_cons in Hnd as [Hk Hnd].
      apply elem_of_cons in Hin as [Heq|Hin].
      + inversion Heq; subst k s'. simpl. unfold prune at 2. simpl.
        destruct (deletes env config t s).
        * apply foldl_prune_gone. apply lookup_delete_eq.
        * rewrite foldl_prune_other; [done|].
          intros s2 Hin2. apply Hk. apply list_elem_of_fmap. by exists (n, s2).
      + simpl. apply IH; [done|done|].
        unfold prune. simpl. destruct (deletes env config t s'); [|done].
        rewrite lookup_delete_ne; [done|].
        intros ->. apply Hk. apply list_elem_of_fmap. by exists (n, s). }
  destruct (m !! n) as [s|] eqn:Hm.
  - apply H; [apply NoDup_fst_map_to_list | by apply elem_of_map_to_list | done].
  - by apply foldl_prune_gone.
Qed.

Lemma loaded_cases w r :
  loaded env w = Ok r -> file w = JsonFile r \/ services r = ∅.
Proof.
  unfold loaded. destruct (fault env (tick w)) as [[c m]|].
  - destruct (String.eqb c "ENOENT"); [|done].
    intros [= <-]. by right.
  - destruct (file w); [intros [= <-]; by right | done | intros [= <-]; by left].
Qed.

(** [cleanup] always returns normally, and either leaves the registry file
    as it was or replaces its services by the pruned ones. *)
Lemma cleanup_outcome w :
  exists w',
    cleanup env config w = (Ok tt, w') /\
    (file w' = file w \/
     exists r, file w = JsonFile r /\
       file w' = JsonFile (mkServiceRegistry
                   (foldl (prune env config (clock w)) (services r) (map_to_list (services r)))
                   (Iso (clock w)))).
Proof.
  unfold cleanup, tryCatch, bind at 1. rewrite loadRegistry_eq.
  destruct (loaded env w) as [r|e] eqn:Hl.
  - unfold bind at 1, now at 1. cbn [clock ticked].
    unfold bind at 1.
    destruct (cleanupLoop_eq (clock w) (map_to_list (services r)) (services r, false)
                (ticked "readFile" w)) as (w2 & E2 & F2 & D2 & C2 & T2).
    rewrite E2. cbn [fst snd orb].
    destruct (existsb _ _) eqn:Hch.
    + unfold bind, now. rewrite C2. cbn [clock ticked].
      pose proof (saveRegistry_file
        (mkServiceRegistry (foldl (prune env config (clock w)) (services r) (map_to_list (services r)))
           (Iso (clock w))) w2) as Hs.
      destruct (saveRegistry env _ w2) as [[[]|e] w3]; cbn [snd] in Hs;
        (eexists; split; [reflexivity|]); cbn [file emit fst snd];
        (destruct Hs as [Hs|Hs]; [right | left; by rewrite Hs, F2]).
      all: destruct (loaded_cases w r Hl) as [Hf|He];
        [by exists r | rewrite He, map_to_list_empty in Hch; discriminate].
    + unfold ret. eexists; split; [reflexivity|]. left. by rewrite F2.
  - unfold emit. eexists; split; [reflexivity|]. by left.
Qed.

Lemma cleanup_stored w n :
  exists w',
    cleanup env config w = (Ok tt, w') /\
    (stored w' n = stored w n \/
     stored w' n = match stored w n with
                   | Some s => if deletes env config (clock w) s then None else Some s
                   | None => None
                   end).
Proof.
  destruct (cleanup_outcome w) as (w' & E & [Hf | (r & Hf & Hf')]);
    exists w'; (split; [exact E|]); unfold stored.
  - left. by rewrite Hf.
  - right. rewrite Hf', Hf. cbn [services]. apply foldl_prune_lookup.
Qed.


(** *** [discover] *)

Lemma discoverOnce_absent n timeout ih w r :
  fst (loadRegistry env w) = Ok r ->
  services r !! n = None ->
  discoverOnce env n timeout ih w = (Ok None, snd (loadRegistry env w)).
Proof.
  intros Hl Hn. unfold discoverOnce, bind.
  destruct (loadRegistry env w) as [res w1]. simpl in Hl. subst res.
  by rewrite Hn.
Qed.

Lemma discoverOnce_plain n timeout w r s :
  fst (loadRegistry env w) = Ok r ->
  services r !! n = Some s ->
  discoverOnce env n timeout false w = (Ok (Some s), snd (loadRegistry env w)).
Proof.
  intros Hl Hn. unfold discoverOnce, bind.
  destruct (loadRegistry env w) as [res w1]. simpl in Hl. subst res.
  by rewrite Hn.
Qed.


(** An attempt whose load succeeds ends the loop, whatever remains. *)
Lemma discoverLoop_returns n timeout retries ih k lastError w x :
  discoverOnce env n timeout ih w = (Ok x, snd (loadRegistry env w)) ->
  discoverLoop env config n timeout retries ih (S k) lastError w
  = (Ok x, snd (loadRegistry env w)).
Proof. intros H. cbn [discoverLoop]. unfold tryCatch. by rewrite H. Qed.



Lemma attemptsOf_nonneg retries : 0 <= retries -> exists k, attemptsOf retries = S k.
Proof.
  intros H. exists (Z.to_nat retries). unfold attemptsOf.
  rewrite Z2Nat.inj_add by lia. simpl. lia.
Qed.

Lemma discover_absent n options w r :
  0 <= retriesOf config options ->
  fst (loadRegistry env w) = Ok r ->
  services r !! n = None ->
  discover env config n options w = (Ok None, snd (loadRegistry env w)).
Proof.
  intros Hr Hl Hn. unfold discover. unfold retriesOf in Hr.
  destruct (attemptsOf_nonneg _ Hr) as [k ->].
  apply discoverLoop_returns. by eapply discoverOnce_absent.
Qed.

Lemma discover_plain n w r s :
  0 <= retryAttempts config ->
  fst (loadRegistry env w) = Ok r ->
  services r !! n = Some s ->
  discover env config n noDiscoverOptions w = (Ok (Some s), snd (loadRegistry env w)).
Proof.
  intros Hr Hl Hn. unfold discover. simpl.
  destruct (attemptsOf_nonneg _ Hr) as [k ->].
  apply discoverLoop_returns. by eapply discoverOnce_plain.
Qed.


(** *** [unregister] *)


Lemma unregister_present n w s :
  stored w n = Some s ->
  dirExists w = true ->
  fault env (tick w) = None ->
  fault env (S (tick w)) = None ->
  exists w', unregister env n w = (Ok tt, w') /\ stored w' n = None.
Proof.
  intros Hs Hd Hf1 Hf2. unfold stored in Hs.
  destruct (file w) as [| |r] eqn:Hfile; try done.
  unfold unregister, tryCatch, bind at 1. rewrite loadRegistry_eq.
  unfold loaded. rewrite Hf1, Hfile, Hs.
  unfold saveRegistry, fsCall, bind, now. cbn [ticked tick dirExists].
  rewrite Hf2, Hd. eexists. split; [reflexivity|].
  unfold stored. cbn [file services]. apply lookup_delete_eq.
Qed.

(** *** [register] and [checkHealth] *)



Lemma loadRegistry_stored w n s :
  stored w n = Some s ->
  fault env (tick w) = None ->
  exists r, fst (loadRegistry env w) = Ok r /\ services r !! n = Some s.
Proof.
  intros Hs Hf. rewrite loadRegistry_eq. unfold loaded. rewrite Hf.
  unfold stored in Hs. destruct (file w) as [| |r]; try done. by exists r.
Qed.

Lemma loadRegistry_trace w : trace (snd (loadRegistry env w)) = EvFs "readFile" :: trace w.
Proof. by rewrite loadRegistry_eq. Qed.

Lemma checkHealth_no_url n options w r s :
  0 <= retryAttempts config ->
  fst (loadRegistry env w) = Ok r ->
  services r !! n = Some s ->
  truthyStr (healthCheckUrl s) = false ->
  checkHealth env config n options w = (Ok true, snd (loadRegistry env w)).
Proof.
  intros Hr Hl Hn Hu. unfold checkHealth, bind.
  rewrite (discover_plain n w r s Hr Hl Hn). by rewrite Hu.
Qed.




End WithEnv.
End NodeFacts.

(** ** The HTTP-backed adapter *)

Module BrowserFacts.
Import Browser.

Section WithEnv.
Variable env : Env.
Variable config : ServiceRegistryConfig.

(** [fetchRegistry] performs no health probe. *)
Lemma http_fetchRegistry_probes w :
  filter isHealthProbe (trace (snd (fetchRegistry env config w)))
  = filter isHealthProbe (trace w).
Proof.
  unfold fetchRegistry, tryCatch, bind, httpRegistry, cacheSet, emit, ret, throw.
  destruct (cache w !! registryApiUrl config) as [[data stamp]|].
  - destruct (clock w - stamp <? CACHE_TTL); [done|].
    destruct (remote env (requests w)); reflexivity.
  - destruct (remote env (requests w)); reflexivity.
Qed.

Lemma http_discoverOnce_absent n timeout ih w r :
  fst (fetchRegistry env config w) = Ok r ->
  services r !! n = None ->
  discoverOnce env config n timeout ih w = (Ok None, snd (fetchRegistry env config w)).
Proof.
  intros Hl Hn. unfold discoverOnce, bind.
  destruct (fetchRegistry env config w) as [res w1]. simpl in Hl. subst res.
  by rewrite Hn.
Qed.

Lemma http_discoverOnce_plain n timeout w r s :
  fst (fetchRegistry env config w) = Ok r ->
  services r !! n = Some s ->
  discoverOnce env config n timeout false w
  = (Ok (Some s), snd (fetchRegistry env config w)).
Proof.
  intros Hl Hn. unfold discoverOnce, bind.
  destruct (fetchRegistry env config w) as [res w1]. simpl in Hl. subst res.
  by rewrite Hn.
Qed.


Lemma http_discoverLoop_returns n timeout retries ih k lastError w x :
  discoverOnce env config n timeout ih w = (Ok x, snd (fetchRegistry env config w)) ->
  discoverLoop env config n timeout retries ih (S k) lastError w
  = (Ok x, snd (fetchRegistry env config w)).
Proof. intros H. cbn [discoverLoop]. unfold tryCatch. by rewrite H. Qed.



Lemma http_attemptsOf_nonneg retries : 0 <= retries -> exists k, attemptsOf retries = S k.
Proof.
  intros H. exists (Z.to_nat retries). unfold attemptsOf.
  rewrite Z2Nat.inj_add by lia. simpl. lia.
Qed.

Lemma http_discover_absent n options w r :
  0 <= default (retryAttempts config) (d_retries options) ->
  fst (fetchRegistry env config w) = Ok r ->
  services r !! n = None ->
  discover env config n options w = (Ok None, snd (fetchRegistry env config w)).
Proof.
  intros Hr Hl Hn. unfold discover.
  destruct (http_attemptsOf_nonneg _ Hr) as [k ->].
  apply http_discoverLoop_returns. by eapply http_discoverOnce_absent.
Qed.

Lemma http_discover_plain n w r s :
  0 <= retryAttempts config ->
  fst (fetchRegistry env config w) = Ok r ->
  services r !! n = Some s ->
  discover env config n noDiscoverOptions w
  = (Ok (Some s), snd (fetchRegistry env config w)).
Proof.
  intros Hr Hl Hn. unfold discover. simpl.
  destruct (http_attemptsOf_nonneg _ Hr) as [k ->].
  apply http_discoverLoop_returns. by eapply http_discoverOnce_plain.
Qed.


Lemma http_checkHealth_no_url n options w r s :
  0 <= retryAttempts config ->
  fst (fetchRegistry env config w) = Ok r ->
  services r !! n = Some s ->
  truthyStr (healthCheckUrl s) = false ->
  checkHealth env config n options w = (Ok true, snd (fetchRegistry env config w)).
Proof.
  intros Hr Hl Hn Hu. unfold checkHealth, bind.
  rewrite (http_discover_plain n w r s Hr Hl Hn). by rewrite Hu.
Qed.


Lemma http_cleanup_returns w : fst (cleanup w) = Ok tt.
Proof. reflexivity. Qed.

End WithEnv.
End BrowserFacts.

(** ** The event-store adapter *)

Module FirebaseFacts.
Import Firebase.

Section WithEnv.
Variable env : Env.
Variable config : ServiceRegistryConfig.

(** *** What the methods leave untouched: the initialisation state *)

Lemma sameInit_trans w1 w2 w3 : sameInit w1 w2 -> sameInit w2 w3 -> sameInit w1 w3.
Proof. unfold sameInit. intros (?&?&?) (?&?&?). repeat split; congruence. Qed.

Lemma keepsInit_ret {A} (a : A) : keepsInit (ret a).
Proof. intros w. by repeat split. Qed.

Lemma keepsInit_throw {A} e : keepsInit (@throw World A e).
Proof. intros w. by repeat split. Qed.

Lemma keepsInit_bind {A B} (c : M World A) (k : A -> M World B) :
  keepsInit c -> (forall a, keepsInit (k a)) -> keepsInit (bind c k).
Proof.
  intros Hc Hk w. unfold bind. specialize (Hc w).
  destruct (c w) as [[a|e] w1]; simpl in *; [|done].
  eapply sameInit_trans; [exact Hc | apply Hk].
Qed.

Lemma keepsInit_tryCatch {A} (c : M World A) h :
  keepsInit c -> (forall e, keepsInit (h e)) -> keepsInit (tryCatch c h).
Proof.
  intros Hc Hh w. unfold tryCatch. specialize (Hc w).
  destruct (c w) as [[a|e] w1]; simpl in *; [done|].
  eapply sameInit_trans; [exact Hc | apply Hh].
Qed.

Lemma keepsInit_emit e : keepsInit (emit e).
Proof. intros w. by repeat split. Qed.

Lemma keepsInit_now : keepsInit now.
Proof. intros w. by repeat split. Qed.

Lemma keepsInit_dbCall op key : keepsInit (dbCall env op key).
Proof. intros w. unfold dbCall. destruct (dbFault env (dbCalls w)); by repeat split. Qed.

Lemma keepsInit_viaFallback {A} (c : M Node.World A) : keepsInit (viaFallback c).
Proof. intros w. unfold viaFallback. destruct (c (fallback w)). by repeat split. Qed.

Lemma keepsInit_write {A} (a : A) cur sv pr hooks :
  keepsInit (fun w => (Ok a, update w (isInitialized w) (refsSet w) (cur w) (sv w) (pr w) (hooks w))).
Proof. intros w. by repeat split. Qed.

Lemma keepsInit_read {A} (f : World -> A) : keepsInit (fun w => (Ok (f w), w)).
Proof. intros w. by repeat split. Qed.

Create HintDb keeps discriminated.
#[local] Hint Resolve keepsInit_ret keepsInit_throw keepsInit_emit keepsInit_now
  keepsInit_dbCall keepsInit_viaFallback keepsInit_read : keeps.

Ltac keeps :=
  repeat first
    [ apply keepsInit_bind; [|intros ?]
    | apply keepsInit_tryCatch; [|intros ?]
    | apply keepsInit_write
    | solve [auto with keeps]
    | match goal with |- keepsInit (if ?b then _ else _) => destruct b end
    | match goal with |- keepsInit (match ?x with Some _ => _ | None => _ end) => destruct x end ].

Lemma keepsInit_setServiceDb n s : keepsInit (setServiceDb env n s).
Proof. unfold setServiceDb. keeps. Qed.

Lemma keepsInit_removeServiceDb n : keepsInit (removeServiceDb env n).
Proof. unfold removeServiceDb. keeps. Qed.

Lemma keepsInit_setPresenceDb n p : keepsInit (setPresenceDb env n p).
Proof. unfold setPresenceDb. keeps. Qed.

Lemma keepsInit_removePresenceDb n : keepsInit (removePresenceDb env n).
Proof. unfold removePresenceDb. keeps. Qed.

Lemma keepsInit_armDisconnect n : keepsInit (armDisconnect env n).
Proof. unfold armDisconnect. keeps. Qed.

Lemma keepsInit_updateHealthDb n h t : keepsInit (updateHealthDb env n h t).
Proof. unfold updateHealthDb. keeps. Qed.

Lemma keepsInit_setCurrent n : keepsInit (setCurrent n).
Proof. intros w. by repeat split. Qed.

Lemma keepsInit_getServiceDb n : keepsInit (getServiceDb env n).
Proof. unfold getServiceDb. keeps. Qed.

Lemma keepsInit_getAllServicesDb : keepsInit (getAllServicesDb env).
Proof. unfold getAllServicesDb. keeps. Qed.

Lemma keepsInit_getPresenceDb n : keepsInit (getPresenceDb env n).
Proof. unfold getPresenceDb. keeps. Qed.

Lemma keepsInit_performHealthCheck url t : keepsInit (performHealthCheck env url t).
Proof. unfold performHealthCheck. keeps. Qed.

#[local] Hint Resolve keepsInit_setServiceDb keepsInit_removeServiceDb
  keepsInit_setPresenceDb keepsInit_removePresenceDb keepsInit_armDisconnect
  keepsInit_updateHealthDb keepsInit_setCurrent keepsInit_getServiceDb
  keepsInit_getAllServicesDb keepsInit_getPresenceDb keepsInit_performHealthCheck : keeps.

Lemma keepsInit_listLoop entries acc : keepsInit (listLoop env entries acc).
Proof.
  revert acc. induction entries as [|[n s] rest IH]; intros acc; simpl; keeps; apply IH.
Qed.

Lemma keepsInit_branch {A} (b : World -> bool) (c1 c2 : M World A) :
  keepsInit c1 -> keepsInit c2 -> keepsInit (fun w => if b w then c1 w else c2 w).
Proof. intros H1 H2 w. destruct (b w); [apply H1 | apply H2]. Qed.

(** *** [initializeFirebase] *)

Lemma init_done w :
  isInitialized w = true -> initializeFirebase env w = (Ok tt, w).
Proof. intros H. unfold initializeFirebase. by rewrite H. Qed.

Lemma init_attempt w :
  isInitialized w = false ->
  fst (initializeFirebase env w) = Ok tt /\
  initAttempts (snd (initializeFirebase env w)) = S (initAttempts w) /\
  isInitialized (snd (initializeFirebase env w)) = initSucceeds env (initAttempts w).
Proof.
  intros H. unfold initializeFirebase. rewrite H.
  destruct (initSucceeds env (initAttempts w)); by repeat split.
Qed.

(** A method that starts with [initializeFirebase] leaves the
    initialisation state as that first step left it. *)
Lemma init_then {A} (body : M World A) w :
  keepsInit body ->
  sameInit (snd (initializeFirebase env w)) (snd ((initializeFirebase env ;; body) w)).
Proof.
  intros Hk. unfold bind.
  assert (fst (initializeFirebase env w) = Ok tt) as Hok.
  { destruct (isInitialized w) eqn:Hi; [by rewrite init_done | by apply init_attempt]. }
  destruct (initializeFirebase env w) as [res w1]. simpl in Hok. subst res.
  apply Hk.
Qed.

Lemma after_sameInit c w :
  sameInit (snd (initializeFirebase env w)) (after env config c w).
Proof.
  destruct c as [n options|n options|n|]; cbn [after];
    [unfold register | unfold discover | unfold unregister | unfold listServices];
    apply init_then; apply keepsInit_branch; keeps.
  apply keepsInit_listLoop.
Qed.

(** *** Runs against a reachable event store *)

Lemma primary_usesFallback w : primary w -> usesFallback w = false.
Proof. intros [Hi Hr]. unfold usesFallback. by rewrite Hi, Hr. Qed.





Lemma getServiceDb_ok n w :
  dbFault env (dbCalls w) = None ->
  getServiceDb env n w = (Ok (servicesDb w !! n), dbTicked "once" ("services/" +:+ n) w).
Proof. intros H. unfold getServiceDb, bind, dbCall. by rewrite H. Qed.

Lemma getPresenceDb_ok n w :
  dbFault env (dbCalls w) = None ->
  getPresenceDb env n w = (Ok (presenceDb w !! n), dbTicked "once" ("presence/" +:+ n) w).
Proof. intros H. unfold getPresenceDb, bind, dbCall. by rewrite H. Qed.

Lemma fb_discover_plain n w s :
  primary w ->
  dbFault env (dbCalls w) = None ->
  dbFault env (S (dbCalls w)) = None ->
  servicesDb w !! n = Some s ->
  presentOnline (presenceDb w !! n) = true ->
  exists w',
    discover env config n noDiscoverOptions w = (Ok (Some s), w') /\
    filter isHealthProbe (trace w') = filter isHealthProbe (trace w).
Proof.
  intros Hp Hf1 Hf2 Hs Hon.
  exists (dbTicked "once" ("presence/" +:+ n) (dbTicked "once" ("services/" +:+ n) w)).
  split; [|reflexivity].
  unfold discover. erewrite bind_ok by (apply init_done, Hp).
  rewrite primary_usesFallback by done.
  apply tryCatch_ok.
  erewrite bind_ok by (by apply getServiceDb_ok). rewrite Hs.
  erewrite bind_ok by (by apply getPresenceDb_ok).
  cbn [presenceDb dbTicked]. by rewrite Hon.
Qed.

Lemma fb_checkHealth_no_url n options w s :
  primary w ->
  dbFault env (dbCalls w) = None ->
  dbFault env (S (dbCalls w)) = None ->
  servicesDb w !! n = Some s ->
  presentOnline (presenceDb w !! n) = true ->
  truthyStr (healthCheckUrl s) = false ->
  exists w',
    checkHealth env config n options w = (Ok true, w') /\
    filter isHealthProbe (trace w') = filter isHealthProbe (trace w).
Proof.
  intros Hp Hf1 Hf2 Hs Hon Hu.
  destruct (fb_discover_plain n w s Hp Hf1 Hf2 Hs Hon) as (w' & Hd & Ht).
  exists w'. split; [|exact Ht].
  unfold checkHealth, bind. by rewrite Hd, Hu.
Qed.

(** *** Runs on the embedded file-backed adapter *)





Lemma registeredMetadata_own m t :
  registeredMetadata env m t !! "userId" = Some (getUserId env) /\
  registeredMetadata env m t !! "hostname" = Some (hostname env) /\
  registeredMetadata env m t !! "nodeVersion" = Some (nodeVersion env) /\
  registeredMetadata env m t !! "platform" = Some (platform env) /\
  registeredMetadata env m t !! "sessionId" = Some (getUserId env +:+ "-" +:+ pretty t).
Proof.
  unfold registeredMetadata.
  repeat split;
    repeat first [ rewrite lookup_insert_eq; reflexivity
                 | rewrite lookup_insert_ne by done ].
Qed.

End WithEnv.
End FirebaseFacts.

(** ** The claims that span several adapters *)

Module Claims.
Import Examples.

(** C1 (code defect): against a reachable event store whose namespace holds
    no record "ghost", [unregister "ghost"] of the event-store adapter
    returns normally; it raises no NotFound error.  The same call on the
    same adapter class, when the store cannot be reached and the registry
    file holds no record either, throws ServiceNotFoundError, as the
    file-backed adapter does. *)
Theorem C1_event_store_unregister_absent_returns :
  Firebase.servicesDb connected !! "ghost" = None /\
  fst (Firebase.unregister storeUp "ghost" connected) = Ok tt /\
  fst (Firebase.unregister storeDown "ghost" (freshAdapter emptyDisk))
    = Throw (ServiceNotFoundError "ghost") /\
  fst (Node.unregister quietProcess "ghost" emptyDisk) = Throw (ServiceNotFoundError "ghost").
Proof. repeat split; reflexivity. Qed.

(** C2 (code defect): over a registry file that cannot be parsed, [cleanup]
    of the file-backed adapter returns normally, while [cleanup] of the
    event-store adapter that has fallen back to that same file throws the
    RegistryUnavailable error of [listServices]. *)
Theorem C2_event_store_cleanup_throws :
  fst (Node.cleanup quietProcess defaultNodeConfig corruptDisk) = Ok tt /\
  fst (Firebase.cleanup storeDown (freshAdapter corruptDisk)) =
    Throw (RegistryUnavailableError
             "Failed to list services: Unexpected token } in JSON").
Proof. split; reflexivity. Qed.




(** C4 (as amended): the event-store adapter caches only a successful
    initialisation.  Once [isInitialized] holds, no [register], [discover],
    [unregister] or [listServices] call makes another attempt and the flag
    stays set; while it does not hold, every such call makes exactly one new
    attempt to reach the event store, and whether the adapter then uses the
    store is decided by that attempt alone. *)
Theorem C4_only_successful_initialisation_is_cached :
  forall (env : Firebase.Env) (config : ServiceRegistryConfig)
         (c : Firebase.Call) (w : Firebase.World),
    (Firebase.isInitialized w = true ->
       Firebase.isInitialized (Firebase.after env config c w) = true /\
       Firebase.initAttempts (Firebase.after env config c w) = Firebase.initAttempts w)
    /\
    (Firebase.isInitialized w = false ->
       Firebase.initAttempts (Firebase.after env config c w) = S (Firebase.initAttempts w) /\
       Firebase.isInitialized (Firebase.after env config c w)
         = Firebase.initSucceeds env (Firebase.initAttempts w)).
Proof.
  intros env config c w.
  destruct (FirebaseFacts.after_sameInit env config c w) as (Hi & _ & Ha).
  split; intros Hw.
  - rewrite (FirebaseFacts.init_done env w Hw) in Hi, Ha. cbn [snd] in Hi, Ha.
    by rewrite Hi, Ha.
  - destruct (FirebaseFacts.init_attempt env w Hw) as (_ & Hn & Hs).
    by rewrite Hi, Ha, Hn, Hs.
Qed.

Lemma C4_witness :
  Firebase.initAttempts
    (Firebase.after storeDown defaultNodeConfig (Firebase.CallDiscover "svc-a" noDiscoverOptions)
       (freshAdapter emptyDisk)) = 1%nat /\
  Firebase.isInitialized
    (Firebase.after storeDown defaultNodeConfig (Firebase.CallDiscover "svc-a" noDiscoverOptions)
       (freshAdapter emptyDisk)) = false.
Proof.
  exact (proj2 (C4_only_successful_initialisation_is_cached storeDown defaultNodeConfig
                  (Firebase.CallDiscover "svc-a" noDiscoverOptions) (freshAdapter emptyDisk))
           eq_refl).
Defined.

(** C4 (as stated) fails: with an event store that cannot be reached, the
    first [discover] leaves the adapter uninitialised after one attempt, and
    the second [discover] on the same instance makes a second attempt. *)
Lemma C4_counterexample :
  ~ (forall (env : Firebase.Env) (config : ServiceRegistryConfig)
            (first later : Firebase.Call) (w : Firebase.World),
       Firebase.isInitialized w = false ->
       Firebase.isInitialized (Firebase.after env config first w) = false ->
       Firebase.initAttempts (Firebase.after env config later (Firebase.after env config first w))
       = Firebase.initAttempts (Firebase.after env config first w)).
Proof.
  intros H.
  specialize (H storeDown defaultNodeConfig
                (Firebase.CallDiscover "svc-a" noDiscoverOptions)
                (Firebase.CallDiscover "svc-a" noDiscoverOptions)
                (freshAdapter emptyDisk) eq_refl eq_refl).
  vm_compute in H. discriminate H.
Qed.






(** C7 (as amended): [checkHealth] of a registered service whose record has
    no health-check URL returns [true] without any health probe.  The
    file-backed adapter performs no network access at all for it; the
    HTTP-backed and event-store adapters perform none beyond reading the
    record from their store.  [register] stores no health-check URL exactly
    when it is given no health path. *)
Theorem C7_checkHealth_without_health_url :
  (forall env config n options w r s,
     0 <= retryAttempts config ->
     fst (Node.loadRegistry env w) = Ok r -> services r !! n = Some s ->
     truthyStr (healthCheckUrl s) = false ->
     exists w',
       Node.checkHealth env config n options w = (Ok true, w') /\
       filter isNetwork (Node.trace w') = filter isNetwork (Node.trace w)) /\
  (forall env config n options w r s,
     0 <= retryAttempts config ->
     fst (Browser.fetchRegistry env config w) = Ok r -> services r !! n = Some s ->
     truthyStr (healthCheckUrl s) = false ->
     exists w',
       Browser.checkHealth env config n options w = (Ok true, w') /\
       filter isHealthProbe (Browser.trace w') = filter isHealthProbe (Browser.trace w)) /\
  (forall env config n options w s,
     Firebase.isInitialized w = true -> Firebase.refsSet w = true ->
     Firebase.dbFault env (Firebase.dbCalls w) = None ->
     Firebase.dbFault env (S (Firebase.dbCalls w)) = None ->
     Firebase.servicesDb w !! n = Some s ->
     Firebase.presentOnline (Firebase.presenceDb w !! n) = true ->
     truthyStr (healthCheckUrl s) = false ->
     exists w',
       Firebase.checkHealth env config n options w = (Ok true, w') /\
       filter isHealthProbe (Firebase.trace w') = filter isHealthProbe (Firebase.trace w)) /\
  (forall p h, truthyStr (deriveHealthCheckUrl p h) = truthyStr h).
Proof.
  split; [|split; [|split]].
  - intros env config n options w r s Hr Hl Hn Hu. eexists. split.
    + by eapply NodeFacts.checkHealth_no_url.
    + by rewrite NodeFacts.loadRegistry_trace.
  - intros env config n options w r s Hr Hl Hn Hu. eexists. split.
    + by eapply BrowserFacts.http_checkHealth_no_url.
    + apply BrowserFacts.http_fetchRegistry_probes.
  - intros env config n options w s Hi Hrefs Hf1 Hf2 Hs Hon Hu.
    by apply (FirebaseFacts.fb_checkHealth_no_url env config n options w s).
  - intros p h. unfold deriveHealthCheckUrl.
    destruct h as [[|c h]|]; reflexivity.
Qed.

Lemma C7_witness :
  exists w',
    Node.checkHealth quietProcess defaultNodeConfig "legacy" noHealthCheckOptions worldLegacy
      = (Ok true, w') /\
    filter isNetwork (Node.trace w') = filter isNetwork (Node.trace worldLegacy).
Proof.
  apply (proj1 C7_checkHealth_without_health_url quietProcess defaultNodeConfig "legacy"
           noHealthCheckOptions worldLegacy
           (mkServiceRegistry (list_to_map [("legacy", legacy)]) (Iso 0)) legacy);
    [cbn; lia | reflexivity | reflexivity | reflexivity].
Defined.

(** C7 (as stated) fails on the HTTP-backed adapter: with an empty cache,
    [checkHealth "legacy"] returns [true] for a record without a health
    path, and to find that record it fetches the registry over the network. *)
Lemma C7_counterexample :
  ~ (forall env config n options w r s,
       fst (Browser.fetchRegistry env config w) = Ok r -> services r !! n = Some s ->
       truthyStr (healthUrl s) = false -> truthyStr (healthCheckUrl s) = false ->
       exists w',
         Browser.checkHealth env config n options w = (Ok true, w') /\
         filter isNetwork (Browser.trace w') = filter isNetwork (Browser.trace w)).
Proof.
  intros H.
  destruct (H remoteLegacy defaultBrowserConfig "legacy" noHealthCheckOptions coldBrowser
              (mkServiceRegistry {[ "legacy" := legacy ]} (Iso 0)) legacy
              eq_refl eq_refl eq_refl eq_refl) as (w' & Hc & Ht).
  assert (w' = snd (Browser.checkHealth remoteLegacy defaultBrowserConfig "legacy"
                      noHealthCheckOptions coldBrowser)) as -> by (by rewrite Hc).
  vm_compute in Ht. discriminate Ht.
Qed.

(** C8: on the HTTP-backed adapter [register] and [unregister] fail for
    every input and every state with an error that says the operation is
    not supported in the browser environment (a RegistryUnavailableError by
    class and code), and leave the adapter's state (cache, request count,
    trace: no request is made) as it was. *)
Theorem C8_http_adapter_rejects_writes :
  forall (n : string) (options : RegisterOptions) (w : Browser.World),
    (exists e, Browser.register n options w = (Throw e, w) /\ isUnsupported e = true) /\
    (exists e, Browser.unregister n w = (Throw e, w) /\ isUnsupported e = true).
Proof. intros n options w. split; eexists; split; reflexivity. Qed.


(** C10: [cleanup] of the file-backed adapter keeps a record that has
    neither a process id nor a health-check URL, whatever its age, the
    configured timeout and the outcome of the file-system calls: the call
    returns normally and the registry file still holds the record. *)
Theorem C10_cleanup_keeps_unprobed_record env config w n s :
  Node.stored w n = Some s ->
  truthyNum (pid s) = false ->
  truthyStr (healthCheckUrl s) = false ->
  exists w', Node.cleanup env config w = (Ok tt, w') /\ Node.stored w' n = Some s.
Proof.
  intros Hs Hp Hu.
  destruct (NodeFacts.cleanup_stored env config w n) as (w' & E & H).
  exists w'. split; [exact E|].
  destruct H as [H|H]; rewrite H, Hs; [done|].
  unfold Node.deletes, Node.processProbeFails, Node.healthProbeFails.
  by rewrite Hp, Hu, andb_false_r.
Qed.

Lemma C10_witness :
  exists w',
    Node.cleanup envProcessDownHealthUp defaultNodeConfig worldLegacy = (Ok tt, w')
    /\ Node.stored w' "legacy" = Some legacy.
Proof.
  apply (C10_cleanup_keeps_unprobed_record envProcessDownHealthUp defaultNodeConfig
           worldLegacy "legacy" legacy); reflexivity.
Defined.

End Claims.

(** * Further properties of the code *)

(** A [try] whose handler rethrows a wrapped error throws only wrapped
    errors, whatever the state type. *)
Lemma tryCatch_wraps {W A} (c : M W A) (f : RegistryError -> RegistryError) w e :
  fst (tryCatch c (fun e0 => throw (f e0)) w) = Throw e -> exists e0, e = f e0.
Proof.
  unfold tryCatch, throw. destruct (c w) as [[a|e0] w1]; [done|].
  intros [= <-]. by exists e0.
Qed.

(** ** The file-backed adapter, continued *)

Module NodeExtras.
Import Node NodeFacts.

Section WithEnv.
Variable env : Env.
Variable config : ServiceRegistryConfig.




(** *** Which errors the methods throw *)

Lemma discoverLoop_unavailable n timeout retries ih k lastError w e :
  fst (discoverLoop env config n timeout retries ih k lastError w) = Throw e ->
  exists m, e = RegistryUnavailableError m.
Proof.
  revert lastError w. induction k as [|k IH]; intros lastError w.
  - simpl. destruct lastError; simpl; [|done]. intros [= <-]. by eexists.
  - cbn [discoverLoop]. unfold tryCatch.
    destruct (discoverOnce env n timeout ih w) as [[x|e1] w1]; [done|].
    unfold bind. destruct k as [|k']; unfold ret, delay; cbv beta iota; apply IH.
Qed.

Lemma checkHealthLoop_throws n url timeout k w e :
  fst (checkHealthLoop env config n url timeout k w) = Throw e ->
  e = HealthCheckError n.
Proof.
  revert w. induction k as [|k IH]; intros w.
  - simpl. by intros [= <-].
  - cbn [checkHealthLoop]. unfold tryCatch.
    match goal with |- fst (let (_, _) := ?c w in _) = _ -> _ =>
      destruct (c w) as [[x|e1] w1] end; [done|].
    unfold bind. destruct k as [|k']; unfold ret, delay; cbv beta iota; apply IH.
Qed.

Lemma unregister_throws n w e :
  fst (unregister env n w) = Throw e ->
  e = ServiceNotFoundError n \/ exists m, e = RegistryUnavailableError m.
Proof.
  unfold unregister, tryCatch, bind at 1. rewrite loadRegistry_eq.
  destruct (loaded env w) as [r|e0] eqn:Hl.
  - destruct (services r !! n) as [s|].
    + unfold bind at 1, now at 1.
      match goal with |- fst (let (_, _) := ?c ?x in _) = _ -> _ =>
        destruct (c x) as [[[]|e1] w1] eqn:Hs end; [done|].
      assert (isNotFound e1 = false) as ->.
      { revert Hs. unfold saveRegistry, bind, fsCall.
        destruct (fault env _) as [[c m]|]; [by intros [= <- _]|].
        cbn [dirExists]. destruct (dirExists _); [done | by intros [= <- _]]. }
      cbn. intros [= <-]. right. by eexists.
    + cbn. intros [= <-]. by left.
  - assert (isNotFound e0 = false) as ->.
    { revert Hl. unfold loaded. destruct (fault env (tick w)) as [[c m]|].
      - destruct (String.eqb c "ENOENT"); [done | by intros [= <-]].
      - destruct (file w); [done | by intros [= <-] | done]. }
    cbn. intros [= <-]. right. by eexists.
Qed.

Lemma checkHealth_throws n options w e :
  fst (checkHealth env config n options w) = Throw e ->
  e = ServiceNotFoundError n \/ e = HealthCheckError n
  \/ exists m, e = RegistryUnavailableError m.
Proof.
  unfold checkHealth, bind.
  destruct (discover env config n noDiscoverOptions w) as [[found|e0] w1] eqn:Hd.
  - destruct found as [s|]; [|cbn; intros [= <-]; by left].
    destruct (truthyStr (healthCheckUrl s)); [|done].
    intros H. right. left. by eapply checkHealthLoop_throws.
  - cbn. intros [= <-]. right. right.
    apply (discoverLoop_unavailable n (healthCheckTimeout config) (retryAttempts config)
             false (attemptsOf (retryAttempts config)) None w).
    unfold discover in Hd. cbn in Hd. by rewrite Hd.
Qed.


End WithEnv.







(** X4: the public methods of the file-backed adapter throw only their
    documented errors, never the raw error of a file-system call:
    [register], [discover] and [listServices] throw RegistryUnavailableError
    only; [unregister] throws ServiceNotFoundError for its own name or
    RegistryUnavailableError; [checkHealth] throws ServiceNotFoundError or
    HealthCheckError for its own name, or RegistryUnavailableError. *)
Theorem X4_file_adapter_error_kinds :
  forall (env : Env) (config : ServiceRegistryConfig) (n : string) (w : World)
         (e : RegistryError),
    (forall options, fst (register env n options w) = Throw e ->
       exists m, e = RegistryUnavailableError m) /\
    (forall options, fst (discover env config n options w) = Throw e ->
       exists m, e = RegistryUnavailableError m) /\
    (fst (listServices env w) = Throw e -> exists m, e = RegistryUnavailableError m) /\
    (fst (unregister env n w) = Throw e ->
       e = ServiceNotFoundError n \/ exists m, e = RegistryUnavailableError m) /\
    (forall options, fst (checkHealth env config n options w) = Throw e ->
       e = ServiceNotFoundError n \/ e = HealthCheckError n
       \/ exists m, e = RegistryUnavailableError m).
Proof.
  intros env config n w e. repeat split.
  - intros options H. apply tryCatch_wraps in H as [e0 ->]. by eexists.
  - intros options. apply discoverLoop_unavailable.
  - intros H. apply tryCatch_wraps in H as [e0 ->]. by eexists.
  - apply unregister_throws.
  - intros options. apply checkHealth_throws.
Qed.

(** X5: when the read succeeds, [listServices] returns one entry per stored
    record and nothing else; a missing registry file gives the empty list,
    not an error; a file that is not a registry document gives
    RegistryUnavailableError. *)
Theorem X5_listServices_lists_the_file env w :
  fault env (tick w) = None ->
  match file w with
  | NoFile => fst (listServices env w) = Ok []
  | BadFile msg =>
      fst (listServices env w)
      = Throw (RegistryUnavailableError ("Failed to list services: " +:+ msg))
  | JsonFile r =>
      exists l,
        fst (listServices env w) = Ok l /\
        length l = size (services r) /\
        (forall s, s ∈ l <-> exists n, services r !! n = Some s)
  end.
Proof.
  intros Hf. unfold listServices, tryCatch, bind. rewrite loadRegistry_eq.
  unfold loaded. rewrite Hf. destruct (file w) as [|msg|r]; cbn [fst].
  - cbn. by rewrite map_to_list_empty.
  - reflexivity.
  - eexists. split; [reflexivity|]. split.
    + by rewrite length_map, length_map_to_list.
    + intros s. rewrite list_elem_of_In, in_map_iff. split.
      * intros ([n s'] & <- & Hin). exists n.
        by apply elem_of_map_to_list, list_elem_of_In.
      * intros (n & Hn). exists (n, s). split; [done|].
        by apply list_elem_of_In, elem_of_map_to_list.
Qed.

Lemma X5_witness :
  exists l,
    fst (listServices Examples.quietProcess Examples.worldSvcA) = Ok l /\
    length l = size (list_to_map [("svc-a", Examples.svcA)] : gmap string ServiceInfo) /\
    (forall s, s ∈ l <->
       exists n, (list_to_map [("svc-a", Examples.svcA)] : gmap string ServiceInfo) !! n
                 = Some s).
Proof.
  exact (X5_listServices_lists_the_file Examples.quietProcess Examples.worldSvcA eq_refl).
Defined.

(** X6: [cleanup] never removes a record whose age does not exceed the
    service timeout, nor one whose [startedAt] is not a date (its age is
    NaN), whatever the probes would say. *)
Theorem X6_cleanup_keeps_young_and_undated_records env config w n s :
  stored w n = Some s ->
  match getTime (startedAt s) with
  | Some t0 => clock w - t0 <= serviceTimeout config
  | None => True
  end ->
  exists w', cleanup env config w = (Ok tt, w') /\ stored w' n = Some s.
Proof.
  intros Hs Hage.
  destruct (cleanup_stored env config w n) as (w' & E & H).
  exists w'. split; [exact E|].
  destruct H as [H|H]; rewrite H, Hs; [done|].
  unfold deletes, olderThanTimeout.
  destruct (getTime (startedAt s)) as [t0|]; [|done].
  destruct (Z.ltb_spec (serviceTimeout config) (clock w - t0)) as [Hlt|_]; [lia|done].
Qed.

Lemma X6_witness :
  exists w',
    cleanup Examples.envProcessDownHealthUp defaultNodeConfig Examples.worldYoung = (Ok tt, w')
    /\ stored w' "young" = Some Examples.young.
Proof.
  apply (X6_cleanup_keeps_young_and_undated_records Examples.envProcessDownHealthUp
           defaultNodeConfig Examples.worldYoung "young" Examples.young eq_refl).
  cbn. lia.
Defined.

(** The attempt of [discover] that probes: with a readable file that holds
    the record, the outcome of the probe and of the write that follows. *)
Lemma discoverOnce_probing env n timeout w r s :
  file w = JsonFile r -> services r !! n = Some s ->
  truthyStr (healthCheckUrl s) = true ->
  fault env (tick w) = None ->
  discoverOnce env n timeout true w =
  let h := default false (httpGet env (default "" (healthCheckUrl s))) in
  let w1 := mkWorld (dirExists w) (file w) (clock w) (S (S (tick w)))
              (EvFs "writeFile" :: EvHealthProbe (default "" (healthCheckUrl s))
                 :: EvFs "readFile" :: trace w) in
  match fault env (S (tick w)) with
  | Some _ => (Ok (Some (setHealth s false (clock w))), w1)
  | None =>
      if dirExists w then
        (Ok (Some (setHealth s h (clock w))),
         mkWorld true (JsonFile (setService r n (setHealth s h (clock w)))) (clock w)
           (S (S (tick w))) (trace w1))
      else (Ok (Some (setHealth s false (clock w))), w1)
  end.
Proof.
  intros Hfile Hn Hu Hf. unfold discoverOnce.
  erewrite bind_ok
    by (rewrite loadRegistry_eq; unfold loaded; rewrite Hf, Hfile; reflexivity).
  rewrite Hn, Hu. cbn [andb].
  unfold tryCatch, saveRegistry, fsCall, performHealthCheck, emit, now, bind, ret.
  cbn [tick ticked dirExists clock trace file].
  destruct (fault env (S (tick w))) as [[c m]|]; [reflexivity|].
  destruct (dirExists w); reflexivity.
Qed.

(** X7: [discover] with [includeHealth] on a record that has a health-check
    URL probes it once and, when the registry can be read and written,
    returns the record with [isHealthy] set to the verdict of the probe (no
    response counts as unhealthy) and [lastHealthCheck] to the current time,
    every other field as stored; it writes that record back to the file and
    leaves the other records as they were. *)
Theorem X7_discover_with_health_records_the_probe env config n timeout retries w s :
  0 <= default (retryAttempts config) retries ->
  stored w n = Some s ->
  truthyStr (healthCheckUrl s) = true ->
  dirExists w = true ->
  fault env (tick w) = None ->
  fault env (S (tick w)) = None ->
  exists w',
    discover env config n (mkDiscoverOptions timeout retries (Some true)) w
    = (Ok (Some (setHealth s (default false (httpGet env (default "" (healthCheckUrl s))))
                   (clock w))), w') /\
    stored w' n
    = Some (setHealth s (default false (httpGet env (default "" (healthCheckUrl s))))
              (clock w)) /\
    (forall m, m ≠ n -> stored w' m = stored w m).
Proof.
  intros Hr Hs Hu Hdir Hf1 Hf2. unfold stored in Hs.
  destruct (file w) as [| |r] eqn:Hfile; try done.
  pose proof (discoverOnce_probing env n
                (default (healthCheckTimeout config) timeout) w r s Hfile Hs Hu Hf1) as Hd.
  rewrite Hf2, Hdir in Hd. cbv zeta in Hd.
  eexists. split; [|split].
  - unfold discover. cbn [d_timeout d_retries d_includeHealth default from_option id].
    destruct (attemptsOf_nonneg _ Hr) as [k ->].
    cbn [discoverLoop]. apply tryCatch_ok. exact Hd.
  - unfold stored. cbn [file setService services]. apply lookup_insert_eq.
  - intros m Hm. unfold stored. rewrite Hfile. cbn [file setService services].
    by apply lookup_insert_ne.
Qed.

Lemma X7_witness :
  exists w',
    discover Examples.envProcessUpHealthDown defaultNodeConfig "svc-a"
      (mkDiscoverOptions None None (Some true)) Examples.worldSvcA
    = (Ok (Some (setHealth Examples.svcA false 400000)), w') /\
    stored w' "svc-a" = Some (setHealth Examples.svcA false 400000) /\
    (forall m, m ≠ "svc-a" -> stored w' m = stored Examples.worldSvcA m).
Proof.
  apply (X7_discover_with_health_records_the_probe Examples.envProcessUpHealthDown
           defaultNodeConfig "svc-a" None None Examples.worldSvcA Examples.svcA);
    [cbn; lia | reflexivity | reflexivity | reflexivity | reflexivity | reflexivity].
Defined.

(** X8: when the write that follows the probe fails, [discover] with
    [includeHealth] still returns the record, but marked unhealthy, even if
    the probe answered with success: the failed write is caught together
    with failures of the probe.  The registry file stays as it was. *)
Theorem X8_discover_reports_unhealthy_when_the_write_fails
    env config n timeout retries w s c msg :
  0 <= default (retryAttempts config) retries ->
  stored w n = Some s ->
  truthyStr (healthCheckUrl s) = true ->
  fault env (tick w) = None ->
  fault env (S (tick w)) = Some (c, msg) ->
  exists w',
    discover env config n (mkDiscoverOptions timeout retries (Some true)) w
    = (Ok (Some (setHealth s false (clock w))), w') /\
    file w' = file w.
Proof.
  intros Hr Hs Hu Hf1 Hf2. unfold stored in Hs.
  destruct (file w) as [| |r] eqn:Hfile; try done.
  pose proof (discoverOnce_probing env n
                (default (healthCheckTimeout config) timeout) w r s Hfile Hs Hu Hf1) as Hd.
  rewrite Hf2 in Hd. cbv zeta in Hd.
  eexists. split.
  - unfold discover. cbn [d_timeout d_retries d_includeHealth default from_option id].
    destruct (attemptsOf_nonneg _ Hr) as [k ->].
    cbn [discoverLoop]. apply tryCatch_ok. exact Hd.
  - cbn [file]. exact Hfile.
Qed.

Lemma X8_witness :
  exists w',
    discover Examples.envSecondCallFails defaultNodeConfig "svc-a"
      (mkDiscoverOptions None None (Some true)) Examples.worldSvcA
    = (Ok (Some (setHealth Examples.svcA false 400000)), w') /\
    file w' = file Examples.worldSvcA.
Proof.
  apply (X8_discover_reports_unhealthy_when_the_write_fails Examples.envSecondCallFails
           defaultNodeConfig "svc-a" None None Examples.worldSvcA Examples.svcA
           "EACCES" "permission denied");
    [cbn; lia | reflexivity | reflexivity | reflexivity | reflexivity].
Defined.

(** *** The retry loop of [discover] *)

Lemma loaded_readFailure env w :
  loaded env w =
  match readFailure env (file w) (tick w) with
  | Some e => Throw e
  | None =>
      match fault env (tick w), file w with
      | None, JsonFile r => Ok r
      | _, _ => Ok (mkServiceRegistry ∅ (Iso (clock w)))
      end
  end.
Proof.
  unfold loaded, readFailure.
  destruct (fault env (tick w)) as [[c m]|].
  - by destruct (String.eqb c "ENOENT").
  - by destruct (file w).
Qed.

Lemma discoverOnce_failing env n timeout ih w e :
  readFailure env (file w) (tick w) = Some e ->
  discoverOnce env n timeout ih w = (Throw e, ticked "readFile" w).
Proof.
  intros H. unfold discoverOnce. apply bind_throw.
  by rewrite loadRegistry_eq, loaded_readFailure, H.
Qed.

(** When every remaining read fails, the loop ends with the failure of the
    last read, after one read per attempt and one delay between attempts. *)
Lemma discoverLoop_all_fail env config n timeout retries ih k :
  forall lastError w,
    (forall i, (i <= k)%nat -> readFailure env (file w) (tick w + i) ≠ None) ->
    exists e w',
      discoverLoop env config n timeout retries ih (S k) lastError w
      = (Throw (discoverFailed n retries e), w') /\
      readFailure env (file w) (tick w + k) = Some e /\
      tick w' = (tick w + S k)%nat /\
      clock w' = clock w + Z.of_nat k * Z.max 0 (retryDelay config) /\
      file w' = file w.
Proof.
  induction k as [|k IH]; intros lastError w Hall.
  - destruct (readFailure env (file w) (tick w)) as [e|] eqn:He.
    2:{ destruct (Hall O ltac:(lia)). by rewrite Nat.add_0_r. }
    exists e, (ticked "readFile" w). split; [|repeat split].
    + cbn [discoverLoop]. erewrite tryCatch_throw by (by apply discoverOnce_failing).
      reflexivity.
    + by rewrite Nat.add_0_r.
    + cbn. lia.
    + cbn. lia.
  - destruct (readFailure env (file w) (tick w)) as [e|] eqn:He.
    2:{ destruct (Hall O ltac:(lia)). by rewrite Nat.add_0_r. }
    set (w2 := mkWorld (dirExists w) (file w) (clock w + Z.max 0 (retryDelay config))
                 (S (tick w)) (EvDelay (retryDelay config) :: EvFs "readFile" :: trace w)).
    destruct (IH (Some e) w2) as (e' & w' & E & Hlast & Ht & Hc & Hfile).
    { intros i Hi. cbn [w2 file tick]. rewrite Nat.add_succ_comm. apply Hall. lia. }
    exists e', w'. split; [|repeat split].
    + cbn [discoverLoop]. erewrite tryCatch_throw by (by apply discoverOnce_failing).
      exact E.
    + cbn [w2 file tick] in Hlast. by rewrite Nat.add_succ_comm in Hlast.
    + rewrite Ht. cbn. lia.
    + rewrite Hc. cbn [w2 clock]. lia.
    + by rewrite Hfile.
Qed.

(** X9: when every one of its reads fails, [discover] throws
    RegistryUnavailableError built from the failure of its last read, after
    exactly [retries + 1] reads and [retries] delays of the configured retry
    delay. *)
Theorem X9_discover_gives_up_after_all_attempts env config n options w :
  0 <= retriesOf config options ->
  (forall i, (i <= Z.to_nat (retriesOf config options))%nat ->
     readFailure env (file w) (tick w + i) ≠ None) ->
  exists e w',
    discover env config n options w
    = (Throw (discoverFailed n (retriesOf config options) e), w') /\
    readFailure env (file w) (tick w + Z.to_nat (retriesOf config options)) = Some e /\
    Z.of_nat (tick w') = Z.of_nat (tick w) + retriesOf config options + 1 /\
    clock w' = clock w + retriesOf config options * Z.max 0 (retryDelay config).
Proof.
  intros Hr Hall. unfold discover. fold (retriesOf config options).
  assert (attemptsOf (retriesOf config options) = S (Z.to_nat (retriesOf config options)))
    as -> by (unfold attemptsOf; lia).
  destruct (discoverLoop_all_fail env config n
              (default (healthCheckTimeout config) (d_timeout options))
              (retriesOf config options) (default false (d_includeHealth options))
              (Z.to_nat (retriesOf config options)) None w Hall)
    as (e & w' & E & Hlast & Ht & Hc & _).
  exists e, w'. repeat split; [exact E | exact Hlast | lia | rewrite Hc; lia].
Qed.

Lemma X9_witness :
  exists e w',
    discover Examples.quietProcess defaultNodeConfig "svc-a" noDiscoverOptions
      Examples.corruptDisk
    = (Throw (discoverFailed "svc-a" (retriesOf defaultNodeConfig noDiscoverOptions) e), w') /\
    readFailure Examples.quietProcess (file Examples.corruptDisk)
      (tick Examples.corruptDisk + Z.to_nat (retriesOf defaultNodeConfig noDiscoverOptions))
    = Some e /\
    Z.of_nat (tick w')
    = Z.of_nat (tick Examples.corruptDisk) + retriesOf defaultNodeConfig noDiscoverOptions + 1 /\
    clock w' = clock Examples.corruptDisk
               + retriesOf defaultNodeConfig noDiscoverOptions
                 * Z.max 0 (retryDelay defaultNodeConfig).
Proof.
  apply (X9_discover_gives_up_after_all_attempts Examples.quietProcess defaultNodeConfig
           "svc-a" noDiscoverOptions Examples.corruptDisk).
  - cbn. lia.
  - intros i _. discriminate.
Defined.

(** X10: with a negative retry count the loop of [discover] never runs:
    [discover] returns null without reading the registry, whether or not the
    name is registered, and [checkHealth], which looks the service up with
    the configured count, then throws ServiceNotFoundError for every name. *)
Theorem X10_negative_retry_count_skips_the_store :
  forall (env : Env) (config : ServiceRegistryConfig) (n : string) (w : World),
    (forall options, retriesOf config options < 0 ->
       discover env config n options w = (Ok None, w)) /\
    (forall options, retryAttempts config < 0 ->
       checkHealth env config n options w = (Throw (ServiceNotFoundError n), w)).
Proof.
  intros env config n w.
  assert (forall options, retriesOf config options < 0 ->
            discover env config n options w = (Ok None, w)) as Hd.
  { intros options Hr. unfold discover. fold (retriesOf config options).
    assert (attemptsOf (retriesOf config options) = O) as -> by (unfold attemptsOf; lia).
    reflexivity. }
  split; [exact Hd|].
  intros options Hr. unfold checkHealth.
  erewrite bind_ok by (apply Hd; exact Hr). reflexivity.
Qed.

Lemma X10_witness :
  discover Examples.quietProcess defaultNodeConfig "svc-a"
    (mkDiscoverOptions None (Some (-1)) None) Examples.worldSvcA
  = (Ok None, Examples.worldSvcA).
Proof.
  apply (proj1 (X10_negative_retry_count_skips_the_store Examples.quietProcess
                  defaultNodeConfig "svc-a" Examples.worldSvcA)).
  cbn. lia.
Defined.




(** X12: [checkHealth] of a registered service that has a health-check URL
    returns the verdict of one probe, [false] when the probe gets no
    response or a response that is not [ok], and records it in the registry
    file; HealthCheckError is not the outcome of a failed probe. *)
Theorem X12_checkHealth_returns_and_records_the_verdict env config n options w s :
  0 <= retryAttempts config ->
  0 <= default (retryAttempts config) (h_retries options) ->
  stored w n = Some s ->
  truthyStr (healthCheckUrl s) = true ->
  dirExists w = true ->
  fault env (tick w) = None ->
  fault env (S (tick w)) = None ->
  fault env (S (S (tick w))) = None ->
  exists w',
    checkHealth env config n options w
    = (Ok (default false (httpGet env (default "" (healthCheckUrl s)))), w') /\
    stored w' n
    = Some (setHealth s (default false (httpGet env (default "" (healthCheckUrl s))))
              (clock w)).
Proof.
  intros Hr Hr' Hs Hu Hdir Hf1 Hf2 Hf3.
  destruct (loadRegistry_stored env w n s Hs Hf1) as (r & Hl & Hn).
  unfold stored in Hs. destruct (file w) as [| |r0] eqn:Hfile; try done.
  assert (r = r0) as ->.
  { rewrite loadRegistry_eq in Hl. unfold loaded in Hl. rewrite Hf1, Hfile in Hl.
    cbn in Hl. congruence. }
  eexists. split.
  - unfold checkHealth.
    erewrite bind_ok by (apply (discover_plain env config n w r0 s Hr Hl Hn)).
    cbv beta iota. rewrite Hu. destruct (attemptsOf_nonneg _ Hr') as [k ->].
    cbn [checkHealthLoop]. apply tryCatch_ok.
    rewrite loadRegistry_eq. cbn [snd].
    unfold performHealthCheck, emit, bind, ret.
    rewrite loadRegistry_eq. unfold loaded.
    cbn [tick ticked file clock dirExists trace]. rewrite Hf2, Hfile, Hn.
    unfold now, saveRegistry, fsCall, bind, setService.
    cbn [tick ticked file clock dirExists trace]. rewrite Hf3, Hdir.
    reflexivity.
  - unfold stored. cbn [file services]. apply lookup_insert_eq.
Qed.

Lemma X12_witness :
  exists w',
    checkHealth Examples.envProcessUpHealthDown defaultNodeConfig "svc-a"
      noHealthCheckOptions Examples.worldSvcA
    = (Ok false, w') /\
    stored w' "svc-a" = Some (setHealth Examples.svcA false 400000).
Proof.
  apply (X12_checkHealth_returns_and_records_the_verdict Examples.envProcessUpHealthDown
           defaultNodeConfig "svc-a" noHealthCheckOptions Examples.worldSvcA Examples.svcA);
    first [reflexivity | cbn; lia].
Defined.




End NodeExtras.

(** ** The HTTP-backed adapter, continued *)

Module BrowserExtras.
Import Browser BrowserFacts.

Section WithEnv.
Variable env : Env.
Variable config : ServiceRegistryConfig.

Lemma fetchRegistry_fresh w data stamp :
  cache w !! registryApiUrl config = Some (data, stamp) ->
  clock w - stamp < CACHE_TTL ->
  fetchRegistry env config w = (Ok data, w).
Proof.
  intros Hc Hlt. unfold fetchRegistry. rewrite Hc.
  by destruct (Z.ltb_spec (clock w - stamp) CACHE_TTL); [|lia].
Qed.

Lemma fetchRegistry_body w r :
  cacheExpired config w ->
  remote env (requests w) = Body r ->
  fetchRegistry env config w = (Ok r, fetched config r w).
Proof.
  unfold cacheExpired, fetchRegistry. intros Hexp Hr.
  destruct (cache w !! registryApiUrl config) as [[data stamp]|].
  - destruct (Z.ltb_spec (clock w - stamp) CACHE_TTL); [lia|].
    unfold tryCatch, bind, httpRegistry, cacheSet, ret. by rewrite Hr.
  - unfold tryCatch, bind, httpRegistry, cacheSet, ret. by rewrite Hr.
Qed.



(** A request that fails while the cache is empty. *)
Lemma fetchRegistry_fails w :
  cache w !! registryApiUrl config = None ->
  replyFails (remote env (requests w)) = true ->
  exists e,
    fetchRegistry env config w
    = (Throw (RegistryUnavailableError
                ("Failed to fetch registry from " +:+ registryApiUrl config +:+ ": "
                   +:+ errorMessage e)),
       mkWorld (cache w) (clock w) (S (requests w))
         (EvRegistryFetch (registryApiUrl config) :: trace w)).
Proof.
  intros Hc Hr. unfold fetchRegistry. rewrite Hc.
  unfold tryCatch, bind, httpRegistry, throw.
  destruct (remote env (requests w)); [by eexists | by eexists | done].
Qed.

Lemma discoverLoop_requests_fail n timeout retries ih k :
  forall lastError w,
    cache w !! registryApiUrl config = None ->
    (forall i, (i <= k)%nat -> replyFails (remote env (requests w + i)) = true) ->
    exists m w',
      discoverLoop env config n timeout retries ih (S k) lastError w
      = (Throw (RegistryUnavailableError m), w') /\
      requests w' = (requests w + S k)%nat /\
      clock w' = clock w + Z.of_nat k * Z.max 0 (retryDelay config) /\
      cache w' = cache w.
Proof.
  induction k as [|k IH]; intros lastError w Hc Hall.
  - destruct (fetchRegistry_fails w Hc) as [e He].
    { rewrite <- (Nat.add_0_r (requests w)). apply Hall. lia. }
    exists ("Failed to discover service '" +:+ n +:+ "' after " +:+ pretty (retries + 1)
              +:+ " attempts: " +:+ "Failed to fetch registry from "
              +:+ registryApiUrl config +:+ ": " +:+ errorMessage e),
      (mkWorld (cache w) (clock w) (S (requests w))
         (EvRegistryFetch (registryApiUrl config) :: trace w)).
    split; [|repeat split].
    + cbn [discoverLoop]. erewrite tryCatch_throw
        by (unfold discoverOnce; apply bind_throw; exact He).
      reflexivity.
    + cbn. lia.
    + cbn. lia.
  - destruct (fetchRegistry_fails w Hc) as [e He].
    { rewrite <- (Nat.add_0_r (requests w)). apply Hall. lia. }
    set (w2 := mkWorld (cache w) (clock w + Z.max 0 (retryDelay config)) (S (requests w))
                 (EvDelay (retryDelay config)
                    :: EvRegistryFetch (registryApiUrl config) :: trace w)).
    destruct (IH (Some (RegistryUnavailableError
                          ("Failed to fetch registry from " +:+ registryApiUrl config
                             +:+ ": " +:+ errorMessage e))) w2)
      as (m & w' & E & Hq & Hcl & Hca).
    { exact Hc. }
    { intros i Hi. cbn [w2 requests]. rewrite Nat.add_succ_comm. apply Hall. lia. }
    exists m, w'. split; [|repeat split].
    + cbn [discoverLoop]. erewrite tryCatch_throw
        by (unfold discoverOnce; apply bind_throw; exact He).
      exact E.
    + rewrite Hq. cbn. lia.
    + rewrite Hcl. cbn [w2 clock]. lia.
    + by rewrite Hca.
Qed.

(** [performHealthCheck] catches every failure of its request: it always
    returns its verdict, after one probe, and touches nothing else. *)
Lemma performHealthCheck_verdict url timeout w :
  exists w',
    performHealthCheck env url timeout w = (Ok (verdict env url), w') /\
    cache w' = cache w /\ clock w' = clock w /\ requests w' = requests w /\
    filter isHealthProbe (trace w') = EvHealthProbe url :: filter isHealthProbe (trace w).
Proof.
  unfold performHealthCheck, verdict, bind, emit, ret.
  destruct (probe env url) as [ok| |]; eexists; (split; [reflexivity|]); by cbn.
Qed.

(** What [fetchRegistry] returns is what the cache holds afterwards, and the
    clock does not move. *)
Lemma fetchRegistry_cache w r w1 :
  fetchRegistry env config w = (Ok r, w1) ->
  clock w1 = clock w /\
  exists stamp, cache w1 !! registryApiUrl config = Some (r, stamp).
Proof.
  unfold fetchRegistry.
  destruct (cache w !! registryApiUrl config) as [[data stamp]|] eqn:Hc.
  - destruct (clock w - stamp <? CACHE_TTL).
    + intros [= <- <-]. split; [done|]. by exists stamp.
    + unfold tryCatch, bind, httpRegistry, cacheSet, emit, ret.
      destruct (remote env (requests w)); intros [= <- <-]; (split; [done|]); cbn [cache].
      * by exists stamp.
      * by exists stamp.
      * exists (clock w). apply lookup_insert_eq.
  - unfold tryCatch, bind, httpRegistry, cacheSet, throw, ret.
    destruct (remote env (requests w)); intros [= <- <-]. split; [done|].
    exists (clock w). apply lookup_insert_eq.
Qed.

Lemma fetchRegistry_unavailable w e w1 :
  fetchRegistry env config w = (Throw e, w1) -> exists m, e = RegistryUnavailableError m.
Proof.
  unfold fetchRegistry.
  destruct (cache w !! registryApiUrl config) as [[data stamp]|].
  - destruct (clock w - stamp <? CACHE_TTL); [done|].
    unfold tryCatch, bind, httpRegistry, cacheSet, emit, ret.
    by destruct (remote env (requests w)).
  - unfold tryCatch, bind, httpRegistry, cacheSet, throw, ret.
    destruct (remote env (requests w)); intros [= <- <-]; by eexists.
Qed.

Lemma http_discoverLoop_unavailable n timeout retries ih k :
  forall lastError w e w1,
    discoverLoop env config n timeout retries ih k lastError w = (Throw e, w1) ->
    exists m, e = RegistryUnavailableError m.
Proof.
  induction k as [|k IH]; intros lastError w e w1.
  - cbn [discoverLoop]. destruct lastError; [|done]. intros [= <- _]. by eexists.
  - cbn [discoverLoop]. unfold tryCatch.
    destruct (discoverOnce env config n timeout ih w) as [[x|e1] w2]; [done|].
    unfold bind. destruct k as [|k']; unfold ret, delay; cbv beta iota; apply IH.
Qed.

Lemma http_checkHealthLoop_first n url timeout k w :
  checkHealthLoop env config n url timeout (S k) w = performHealthCheck env url timeout w.
Proof.
  cbn [checkHealthLoop].
  destruct (performHealthCheck_verdict url timeout w) as (w' & E & _).
  rewrite E. by apply tryCatch_ok.
Qed.

End WithEnv.

(** X14: a snapshot that [fetchRegistry] got from the network is cached
    with the time of the request, and every [fetchRegistry] within the next
    five seconds returns it without a request. *)
Theorem X14_fetched_snapshot_is_served_from_cache env config w r :
  cacheExpired config w ->
  remote env (requests w) = Body r ->
  exists w1,
    fetchRegistry env config w = (Ok r, w1) /\
    requests w1 = S (requests w) /\
    (forall w2, cache w2 = cache w1 -> clock w2 - clock w < CACHE_TTL ->
       fetchRegistry env config w2 = (Ok r, w2)).
Proof.
  intros Hexp Hr. exists (fetched config r w).
  split; [by apply fetchRegistry_body|]. split; [reflexivity|].
  intros w2 Hc Hlt. apply (fetchRegistry_fresh env config w2 r (clock w)); [|exact Hlt].
  rewrite Hc. cbn [fetched cache]. apply lookup_insert_eq.
Qed.

Lemma X14_witness :
  exists w1,
    fetchRegistry Examples.remoteLegacy defaultBrowserConfig Examples.coldBrowser
    = (Ok (mkServiceRegistry {[ "legacy" := Examples.legacy ]} (Iso 0)), w1) /\
    requests w1 = S (requests Examples.coldBrowser) /\
    (forall w2, cache w2 = cache w1 -> clock w2 - clock Examples.coldBrowser < CACHE_TTL ->
       fetchRegistry Examples.remoteLegacy defaultBrowserConfig w2
       = (Ok (mkServiceRegistry {[ "legacy" := Examples.legacy ]} (Iso 0)), w2)).
Proof.
  apply (X14_fetched_snapshot_is_served_from_cache Examples.remoteLegacy
           defaultBrowserConfig Examples.coldBrowser); [exact I | reflexivity].
Defined.



(** X16: with an empty cache and an endpoint that fails every request,
    [discover] throws RegistryUnavailableError after exactly [retries + 1]
    requests and [retries] delays, and caches nothing. *)
Theorem X16_discover_gives_up_after_all_requests env config n options w :
  0 <= default (retryAttempts config) (d_retries options) ->
  cache w !! registryApiUrl config = None ->
  (forall i, replyFails (remote env (requests w + i)) = true) ->
  exists m w',
    discover env config n options w = (Throw (RegistryUnavailableError m), w') /\
    Z.of_nat (requests w')
    = Z.of_nat (requests w) + default (retryAttempts config) (d_retries options) + 1 /\
    clock w' = clock w + default (retryAttempts config) (d_retries options)
                         * Z.max 0 (retryDelay config) /\
    cache w' = cache w.
Proof.
  intros Hr Hc Hall. unfold discover.
  assert (attemptsOf (default (retryAttempts config) (d_retries options))
          = S (Z.to_nat (default (retryAttempts config) (d_retries options))))
    as -> by (unfold attemptsOf; lia).
  destruct (discoverLoop_requests_fail env config n
              (default (healthCheckTimeout config) (d_timeout options))
              (default (retryAttempts config) (d_retries options))
              (default false (d_includeHealth options))
              (Z.to_nat (default (retryAttempts config) (d_retries options))) None w Hc)
    as (m & w' & E & Hq & Hcl & Hca); [intros i _; apply Hall|].
  exists m, w'. repeat split; [exact E | lia | rewrite Hcl; lia | exact Hca].
Qed.

Lemma X16_witness :
  exists m w',
    discover Examples.remoteDown defaultBrowserConfig "svc-a" noDiscoverOptions
      Examples.coldBrowser = (Throw (RegistryUnavailableError m), w') /\
    Z.of_nat (requests w')
    = Z.of_nat (requests Examples.coldBrowser)
      + default (retryAttempts defaultBrowserConfig) (d_retries noDiscoverOptions) + 1 /\
    clock w' = clock Examples.coldBrowser
               + default (retryAttempts defaultBrowserConfig) (d_retries noDiscoverOptions)
                 * Z.max 0 (retryDelay defaultBrowserConfig) /\
    cache w' = cache Examples.coldBrowser.
Proof.
  apply (X16_discover_gives_up_after_all_requests Examples.remoteDown defaultBrowserConfig
           "svc-a" noDiscoverOptions Examples.coldBrowser);
    [cbn; lia | reflexivity | reflexivity].
Defined.

(** X17: [cleanup] empties the cache and does nothing else, so the next
    [fetchRegistry] makes a request even if the cache was fresh. *)
Theorem X17_cleanup_forces_the_next_fetch :
  forall (env : Env) (config : ServiceRegistryConfig) (w : World),
    exists w1,
      cleanup w = (Ok tt, w1) /\
      cache w1 = ∅ /\ clock w1 = clock w /\ requests w1 = requests w /\ trace w1 = trace w /\
      requests (snd (fetchRegistry env config w1)) = S (requests w).
Proof.
  intros env config w. eexists. split; [reflexivity|]. repeat split.
  unfold fetchRegistry. cbn [cache]. rewrite lookup_empty.
  unfold tryCatch, bind, httpRegistry, cacheSet, ret, throw. cbn [requests].
  by destruct (remote env (requests w)).
Qed.

(** X18: [checkHealth] of a record with a health URL makes exactly one
    probe and returns its verdict (a CORS failure counts as healthy): the
    retry loop never takes a second turn, no delay is made, the cache is left
    alone and HealthCheckError is not thrown.  Only a negative retry count
    makes it throw HealthCheckError, and then without any probe. *)
Theorem X18_checkHealth_probes_once env config n options w r s :
  0 <= retryAttempts config ->
  fst (fetchRegistry env config w) = Ok r ->
  services r !! n = Some s ->
  truthyStr (healthCheckUrl s) = true ->
  let w1 := snd (fetchRegistry env config w) in
  let url := default "" (healthCheckUrl s) in
  (0 <= default (retryAttempts config) (h_retries options) ->
   exists w2,
     checkHealth env config n options w = (Ok (verdict env url), w2) /\
     cache w2 = cache w1 /\ clock w2 = clock w /\ requests w2 = requests w1 /\
     filter isHealthProbe (trace w2) = EvHealthProbe url :: filter isHealthProbe (trace w)) /\
  (default (retryAttempts config) (h_retries options) < 0 ->
   checkHealth env config n options w = (Throw (HealthCheckError n), w1)).
Proof.
  intros Hr Hl Hn Hu w1 url.
  assert (checkHealth env config n options w
          = checkHealthLoop env config n url
              (default (healthCheckTimeout config) (h_timeout options))
              (attemptsOf (default (retryAttempts config) (h_retries options))) w1) as ->.
  { unfold checkHealth, bind. rewrite (http_discover_plain env config n w r s Hr Hl Hn).
    by rewrite Hu. }
  assert (clock w1 = clock w) as Hclock.
  { subst w1. destruct (fetchRegistry env config w) as [res w'] eqn:Hf.
    cbn in Hl. subst res. by destruct (fetchRegistry_cache env config w r w' Hf). }
  assert (filter isHealthProbe (trace w1) = filter isHealthProbe (trace w)) as Htrace
    by apply http_fetchRegistry_probes.
  split.
  - intros Hk. destruct (http_attemptsOf_nonneg _ Hk) as [k ->].
    rewrite http_checkHealthLoop_first.
    destruct (performHealthCheck_verdict env url
                (default (healthCheckTimeout config) (h_timeout options)) w1)
      as (w2 & E & Hc & Hcl & Hq & Ht).
    exists w2. repeat split; [exact E | exact Hc | congruence | exact Hq | congruence].
  - intros Hk. assert (attemptsOf (default (retryAttempts config) (h_retries options)) = O)
      as -> by (unfold attemptsOf; lia).
    reflexivity.
Qed.

Lemma X18_witness :
  exists w2,
    checkHealth Examples.remoteA defaultBrowserConfig "svc-a" noHealthCheckOptions
      Examples.coldBrowser = (Ok true, w2) /\
    requests w2 = 1%nat.
Proof.
  destruct (proj1 (X18_checkHealth_probes_once Examples.remoteA defaultBrowserConfig "svc-a"
                     noHealthCheckOptions Examples.coldBrowser Examples.snapshotA
                     Examples.svcA ltac:(cbn; lia) eq_refl eq_refl eq_refl)
              ltac:(cbn; lia)) as (w2 & E & _ & _ & Hq & _).
  exists w2. split; [exact E | exact Hq].
Defined.

(** X19: [discover] with [includeHealth] returns the record with the
    verdict of one probe and the time of the call, but records nothing: the
    cache still holds the snapshot as it was served, so the verdict is not
    seen by later calls. *)
Theorem X19_discover_with_health_leaves_the_cache env config n options w r s :
  0 <= default (retryAttempts config) (d_retries options) ->
  d_includeHealth options = Some true ->
  fst (fetchRegistry env config w) = Ok r ->
  services r !! n = Some s ->
  truthyStr (healthCheckUrl s) = true ->
  exists w2 stamp,
    discover env config n options w
    = (Ok (Some (withHealth s (verdict env (default "" (healthCheckUrl s))) (clock w))), w2) /\
    cache w2 !! registryApiUrl config = Some (r, stamp) /\
    requests w2 = requests (snd (fetchRegistry env config w)).
Proof.
  intros Hk Hih Hl Hn Hu. unfold discover. rewrite Hih. cbn [default].
  destruct (http_attemptsOf_nonneg _ Hk) as [k ->].
  destruct (fetchRegistry env config w) as [res w1] eqn:Hf. cbn in Hl. subst res.
  destruct (fetchRegistry_cache env config w r w1 Hf) as (Hclock & stamp & Hcache).
  destruct (performHealthCheck_verdict env (default "" (healthCheckUrl s))
              (default (healthCheckTimeout config) (d_timeout options)) w1)
    as (w2 & E & Hc & Hcl & Hq & _).
  exists w2, stamp. split; [|split].
  - cbn [discoverLoop]. apply tryCatch_ok. unfold discoverOnce.
    erewrite bind_ok by exact Hf. cbv beta. rewrite Hn, Hu. cbn [andb].
    apply tryCatch_ok. erewrite bind_ok by exact E.
    unfold bind, now, ret. by rewrite Hcl, Hclock.
  - by rewrite Hc.
  - exact Hq.
Qed.

Lemma X19_witness :
  exists w2 stamp,
    discover Examples.remoteA defaultBrowserConfig "svc-a"
      (mkDiscoverOptions None None (Some true)) Examples.coldBrowser
    = (Ok (Some (withHealth Examples.svcA true 1000)), w2) /\
    cache w2 !! "http://localhost:3001/api/registry" = Some (Examples.snapshotA, stamp) /\
    requests w2 = 1%nat.
Proof.
  apply (X19_discover_with_health_leaves_the_cache Examples.remoteA defaultBrowserConfig
           "svc-a" (mkDiscoverOptions None None (Some true)) Examples.coldBrowser
           Examples.snapshotA Examples.svcA);
    [cbn; lia | reflexivity | reflexivity | reflexivity | reflexivity].
Defined.

(** X20: the errors of the HTTP-backed adapter.  [discover] and
    [listServices] throw nothing but RegistryUnavailableError; [checkHealth]
    throws ServiceNotFoundError or HealthCheckError for the name asked, or
    RegistryUnavailableError. *)
Theorem X20_http_adapter_error_kinds :
  forall (env : Env) (config : ServiceRegistryConfig) (w w1 : World) (e : RegistryError),
    (forall n options, discover env config n options w = (Throw e, w1) ->
       exists m, e = RegistryUnavailableError m) /\
    (listServices env config w = (Throw e, w1) ->
       exists m, e = RegistryUnavailableError m) /\
    (forall n options, checkHealth env config n options w = (Throw e, w1) ->
       e = ServiceNotFoundError n \/ e = HealthCheckError n \/
       exists m, e = RegistryUnavailableError m).
Proof.
  intros env config w w1 e. split; [|split].
  - intros n options. apply http_discoverLoop_unavailable.
  - unfold listServices, tryCatch, bind, ret, throw.
    destruct (fetchRegistry env config w) as [[r|e0] w0]; [done|].
    intros [= <- _]. by eexists.
  - intros n options. unfold checkHealth, bind.
    destruct (discover env config n noDiscoverOptions w) as [[[s|]|e0] w0] eqn:Hd.
    + destruct (truthyStr (healthCheckUrl s)); [|done].
      destruct (attemptsOf _) as [|k].
      * intros [= <- _]. right. by left.
      * rewrite http_checkHealthLoop_first.
        destruct (performHealthCheck_verdict env (default "" (healthCheckUrl s))
                    (default (healthCheckTimeout config) (h_timeout options)) w0)
          as (w2 & E & _).
        by rewrite E.
    + intros [= <- _]. by left.
    + intros [= <- <-]. right. right.
      by apply (http_discoverLoop_unavailable env config _ _ _ _ _ _ _ _ _ Hd).
Qed.

End BrowserExtras.

(** ** The event-store adapter, continued *)

Module FirebaseExtras.
Import Firebase FirebaseFacts.

Section WithEnv.
Variable env : Env.
Variable config : ServiceRegistryConfig.

(** A method that starts with [initializeFirebase] and then chooses between
    the embedded adapter and the database, on an adapter that cannot reach
    the event store. *)
Lemma fb_on_fallback {A} (c : M Node.World A) (prim : M World A) w :
  isInitialized w = false ->
  initSucceeds env (initAttempts w) = false ->
  (initializeFirebase env ;;
   fun w0 => if usesFallback w0 then viaFallback c w0 else prim w0) w
  = (fst (c (fallback w)), onFallback w (snd (c (fallback w)))).
Proof.
  intros Hi Hs. unfold bind, initializeFirebase. rewrite Hi, Hs.
  unfold usesFallback, viaFallback, onFallback. cbn.
  by destruct (c (fallback w)).
Qed.

(** The same method on an adapter that has initialised. *)
Lemma fb_on_primary {A} (c : M Node.World A) (prim : M World A) w :
  primary w ->
  (initializeFirebase env ;;
   fun w0 => if usesFallback w0 then viaFallback c w0 else prim w0) w
  = prim w.
Proof.
  intros Hp. erewrite bind_ok by (apply init_done, Hp).
  by rewrite primary_usesFallback.
Qed.

Lemma init_returns w : exists w1, initializeFirebase env w = (Ok tt, w1).
Proof.
  unfold initializeFirebase. destruct (isInitialized w); [by eexists|].
  destruct (initSucceeds env (initAttempts w)); by eexists.
Qed.

(** The errors of such a method are those of its two branches. *)
Lemma fb_method_throws {A} (c : M Node.World A) (prim : M World A)
    (P : RegistryError -> Prop) w e :
  (forall fw, fst (c fw) = Throw e -> P e) ->
  (forall w0, fst (prim w0) = Throw e -> P e) ->
  fst ((initializeFirebase env ;;
        fun w0 => if usesFallback w0 then viaFallback c w0 else prim w0) w) = Throw e ->
  P e.
Proof.
  intros Hc Hp. destruct (init_returns w) as [w1 E].
  erewrite bind_ok by exact E. destruct (usesFallback w1); [|apply Hp].
  unfold viaFallback. specialize (Hc (fallback w1)).
  destruct (c (fallback w1)) as [res fw]. exact Hc.
Qed.

Lemma removeServiceDb_ok n w :
  dbFault env (dbCalls w) = None ->
  removeServiceDb env n w
  = (Ok tt, update (dbTicked "remove" ("services/" +:+ n) w) (isInitialized w) (refsSet w)
              (currentServiceName w) (delete n (servicesDb w)) (presenceDb w)
              (disconnectHooks w)).
Proof. intros H. unfold removeServiceDb, bind, dbCall. by rewrite H. Qed.

Lemma removePresenceDb_ok n w :
  dbFault env (dbCalls w) = None ->
  removePresenceDb env n w
  = (Ok tt, update (dbTicked "remove" ("presence/" +:+ n) w) (isInitialized w) (refsSet w)
              (currentServiceName w) (servicesDb w) (delete n (presenceDb w))
              (disconnectHooks w)).
Proof. intros H. unfold removePresenceDb, bind, dbCall. by rewrite H. Qed.

(** [discover] of a record whose presence is missing or offline. *)
Lemma fb_discover_offline n options w s :
  primary w ->
  (forall i, (i < 3)%nat -> dbFault env (dbCalls w + i) = None) ->
  servicesDb w !! n = Some s ->
  presentOnline (presenceDb w !! n) = false ->
  exists w1,
    discover env config n options w = (Ok None, w1) /\
    servicesDb w1 = delete n (servicesDb w) /\
    presenceDb w1 = presenceDb w /\
    dbCalls w1 = (dbCalls w + 3)%nat.
Proof.
  intros Hp Hf Hs Hoff.
  pose proof (Hf 0%nat ltac:(lia)) as H0. rewrite Nat.add_0_r in H0.
  pose proof (Hf 1%nat ltac:(lia)) as H1. rewrite Nat.add_1_r in H1.
  pose proof (Hf 2%nat ltac:(lia)) as H2.
  replace (dbCalls w + 2)%nat with (S (S (dbCalls w))) in H2 by lia.
  eexists. split.
  { unfold discover. rewrite fb_on_primary by done.
    apply tryCatch_ok.
    erewrite bind_ok by (by apply getServiceDb_ok). rewrite Hs.
    erewrite bind_ok by (by apply getPresenceDb_ok).
    cbn [presenceDb dbTicked]. rewrite Hoff.
    erewrite bind_ok by (by apply removeServiceDb_ok). reflexivity. }
  repeat split. cbn. lia.
Qed.

(** *** The loop of [listServices] *)

Lemma listLoop_run pr entries :
  noDbFaults env ->
  forall acc w,
    presenceDb w = pr ->
    exists w',
      listLoop env entries acc w
      = (Ok (acc ++ map snd (filter (onlineIn pr) entries)), w') /\
      presenceDb w' = pr /\
      servicesDb w'
      = foldl (fun m e => if onlineIn pr e then m else delete e.1 m) (servicesDb w) entries /\
      isInitialized w' = isInitialized w /\ refsSet w' = refsSet w /\
      fallback w' = fallback w /\ initAttempts w' = initAttempts w.
Proof.
  intros Hno. induction entries as [|[n s] rest IH]; intros acc w Hpr.
  - exists w. cbn. by rewrite app_nil_r.
  - cbn [listLoop]. erewrite bind_ok by (by apply getPresenceDb_ok).
    cbn [presenceDb dbTicked]. rewrite Hpr.
    destruct (presentOnline (pr !! n)) eqn:Hon.
    + destruct (IH (acc ++ [s]) (dbTicked "once" ("presence/" +:+ n) w) Hpr)
        as (w' & E & H1 & H2 & H3 & H4 & H5 & H6).
      exists w'. rewrite E, H2.
      rewrite filter_cons_True by (unfold onlineIn; cbn; by rewrite Hon).
      cbn [map snd foldl]. change (onlineIn pr (n, s)) with (presentOnline (pr !! n)).
      rewrite Hon, <- app_assoc. by repeat split.
    + erewrite bind_ok by (by apply removeServiceDb_ok).
      match goal with |- context [listLoop env rest acc ?w2] =>
        destruct (IH acc w2 Hpr) as (w' & E & H1 & H2 & H3 & H4 & H5 & H6) end.
      exists w'. rewrite E, H2.
      rewrite filter_cons_False by (unfold onlineIn; cbn [fst]; rewrite Hon; exact id).
      cbn [foldl]. change (onlineIn pr (n, s)) with (presentOnline (pr !! n)).
      rewrite Hon. by repeat split.
Qed.

Lemma dropOffline_online pr entries k :
  presentOnline (pr !! k) = true ->
  forall m : gmap string ServiceInfo,
    foldl (fun m e => if onlineIn pr e then m else delete e.1 m) m entries !! k = m !! k.
Proof.
  intros Hon. induction entries as [|[n s] rest IH]; intros m; [done|].
  cbn [foldl]. rewrite IH. unfold onlineIn. cbn [fst].
  destruct (presentOnline (pr !! n)) eqn:Hn; [done|].
  apply lookup_delete_ne. intros ->. congruence.
Qed.

Lemma dropOffline_gone pr entries k :
  forall m : gmap string ServiceInfo,
    m !! k = None ->
    foldl (fun m e => if onlineIn pr e then m else delete e.1 m) m entries !! k = None.
Proof.
  induction entries as [|[n s] rest IH]; intros m Hm; [done|].
  cbn [foldl]. apply IH. destruct (onlineIn pr (n, s)); [done|].
  cbn [fst]. destruct (decide (n = k)) as [->|Hne];
    [apply lookup_delete_eq | by rewrite lookup_delete_ne].
Qed.

Lemma dropOffline_offline pr entries k :
  presentOnline (pr !! k) = false ->
  k ∈ map fst entries ->
  forall m : gmap string ServiceInfo,
    foldl (fun m e => if onlineIn pr e then m else delete e.1 m) m entries !! k = None.
Proof.
  intros Hoff. induction entries as [|[n s] rest IH]; intros Hin m.
  - by apply elem_of_nil in Hin.
  - cbn [map fst] in Hin. cbn [foldl].
    change (onlineIn pr (n, s)) with (presentOnline (pr !! n)). cbn [fst].
    destruct (decide (n = k)) as [->|Hne].
    + rewrite Hoff. apply dropOffline_gone, lookup_delete_eq.
    + apply elem_of_cons in Hin as [Heq|Hin]; [congruence|]. by apply IH.
Qed.

(** What [listServices] leaves in the database. *)
Lemma dropOffline_lookup pr (m : gmap string ServiceInfo) k :
  foldl (fun m e => if onlineIn pr e then m else delete e.1 m) m (map_to_list m) !! k
  = if presentOnline (pr !! k) then m !! k else None.
Proof.
  destruct (presentOnline (pr !! k)) eqn:Hon; [by apply dropOffline_online|].
  destruct (m !! k) as [s|] eqn:Hk; [|by apply dropOffline_gone].
  apply dropOffline_offline; [done|].
  apply list_elem_of_fmap. exists (k, s). split; [done|].
  by apply elem_of_map_to_list.
Qed.

Lemma fb_listServices_run w :
  primary w -> noDbFaults env ->
  exists w1,
    listServices env w
    = (Ok (map snd (filter (onlineIn (presenceDb w)) (map_to_list (servicesDb w)))), w1) /\
    (forall n, servicesDb w1 !! n
               = if presentOnline (presenceDb w !! n) then servicesDb w !! n else None) /\
    presenceDb w1 = presenceDb w /\ primary w1 /\ fallback w1 = fallback w.
Proof.
  intros Hp Hno. unfold listServices. rewrite fb_on_primary by done.
  destruct (listLoop_run (presenceDb w) (map_to_list (servicesDb w)) Hno []
              (dbTicked "once" "services" w) eq_refl)
    as (w1 & E & H1 & H2 & H3 & H4 & H5 & H6).
  exists w1. split; [|repeat split].
  - apply tryCatch_ok. unfold getAllServicesDb.
    unfold bind at 1, bind at 1, dbCall. rewrite Hno. exact E.
  - intros n. rewrite H2. cbn [servicesDb dbTicked]. apply dropOffline_lookup.
  - exact H1.
  - rewrite H3. apply Hp.
  - rewrite H4. apply Hp.
  - exact H5.
Qed.

Lemma fb_unregister_run n w :
  primary w -> noDbFaults env ->
  exists w',
    unregister env n w = (Ok tt, w') /\
    servicesDb w' = delete n (servicesDb w) /\
    presenceDb w' = delete n (presenceDb w) /\
    primary w'.
Proof.
  intros Hp Hno. eexists. split.
  { unfold unregister. rewrite fb_on_primary by done. apply tryCatch_ok.
    erewrite bind_ok by (apply removeServiceDb_ok, Hno).
    apply removePresenceDb_ok, Hno. }
  repeat split; apply Hp.
Qed.

Lemma fb_performHealthCheck_run url timeout w :
  performHealthCheck env url timeout w
  = (Ok (default false (Node.httpGet (node env) url)),
     mkWorld (isInitialized w) (refsSet w) (currentServiceName w) (servicesDb w)
       (presenceDb w) (disconnectHooks w) (initAttempts w) (dbCalls w) (fallback w)
       (EvHealthProbe url :: trace w)).
Proof. reflexivity. Qed.

(** *** The loop of [cleanup] *)

Lemma fb_cleanupLoop_run l :
  noDbFaults env ->
  forall w,
    primary w ->
    exists w',
      cleanupLoop env l w = (Ok tt, w') /\
      servicesDb w'
      = foldl (fun m s => if passesProbe env s then m else delete (name s) m)
          (servicesDb w) l /\
      primary w'.
Proof.
  intros Hno. induction l as [|s rest IH]; intros w Hp.
  - by exists w.
  - cbn [cleanupLoop foldl].
    destruct (truthyStr (healthCheckUrl s)) eqn:Hu.
    + set (url := default "" (healthCheckUrl s)).
      set (we := mkWorld (isInitialized w) (refsSet w) (currentServiceName w) (servicesDb w)
                   (presenceDb w) (disconnectHooks w) (initAttempts w) (dbCalls w)
                   (fallback w) (EvHealthProbe url :: trace w)).
      assert (primary we) as Hpe by exact Hp.
      assert (passesProbe env s = default false (Node.httpGet (node env) url)) as ->
        by (unfold passesProbe; by rewrite Hu).
      destruct (default false (Node.httpGet (node env) url)) eqn:Hh.
      * destruct (IH we Hpe) as (w' & E & Hsv & Hp'). exists w'.
        split; [|by split].
        erewrite bind_ok; [exact E|]. apply tryCatch_ok.
        erewrite bind_ok by apply fb_performHealthCheck_run.
        fold url. by rewrite Hh.
      * destruct (fb_unregister_run (name s) we Hpe Hno) as (wu & Eu & Hs & _ & Hpu).
        destruct (IH wu Hpu) as (w' & E & Hsv & Hp'). exists w'.
        split; [|split; [by rewrite Hsv, Hs | done]].
        erewrite bind_ok; [exact E|]. apply tryCatch_ok.
        erewrite bind_ok by apply fb_performHealthCheck_run.
        fold url. by rewrite Hh.
    + assert (passesProbe env s = true) as -> by (unfold passesProbe; by rewrite Hu).
      erewrite bind_ok by reflexivity. by apply IH.
Qed.

Lemma pruneFailing_gone l k :
  forall m : gmap string ServiceInfo,
    m !! k = None ->
    foldl (fun m s => if passesProbe env s then m else delete (name s) m) m l !! k = None.
Proof.
  induction l as [|s rest IH]; intros m Hm; [done|].
  cbn [foldl]. apply IH. destruct (passesProbe env s); [done|].
  destruct (decide (name s = k)) as [->|Hne];
    [apply lookup_delete_eq | by rewrite lookup_delete_ne].
Qed.

Lemma pruneFailing_keep l k :
  (forall s, s ∈ l -> name s = k -> passesProbe env s = true) ->
  forall m : gmap string ServiceInfo,
    foldl (fun m s => if passesProbe env s then m else delete (name s) m) m l !! k = m !! k.
Proof.
  induction l as [|s rest IH]; intros Hall m; [done|].
  cbn [foldl]. rewrite IH by (intros s' Hin; apply Hall; by right).
  destruct (passesProbe env s) eqn:Hpass; [done|].
  apply lookup_delete_ne. intros Hk.
  rewrite (Hall s ltac:(by left) Hk) in Hpass. done.
Qed.

Lemma pruneFailing_hit l k s :
  s ∈ l -> name s = k -> passesProbe env s = false ->
  forall m : gmap string ServiceInfo,
    foldl (fun m s => if passesProbe env s then m else delete (name s) m) m l !! k = None.
Proof.
  intros Hin Hk Hfail. induction l as [|s' rest IH]; intros m.
  - by apply elem_of_nil in Hin.
  - cbn [foldl]. apply elem_of_cons in Hin as [<-|Hin]; [|by apply IH].
    rewrite Hfail, Hk. apply pruneFailing_gone, lookup_delete_eq.
Qed.

(** The records that [listServices] returns, when every record is stored
    under its own name. *)
Lemma online_listed pr (m : gmap string ServiceInfo) s :
  wellKeyed m ->
  s ∈ map snd (filter (onlineIn pr) (map_to_list m)) <->
  m !! name s = Some s /\ presentOnline (pr !! name s) = true.
Proof.
  intros Hwk. rewrite list_elem_of_fmap. split.
  - intros ([k s'] & -> & Hin). cbn [snd].
    apply list_elem_of_filter in Hin as [Hon Hin].
    apply elem_of_map_to_list in Hin.
    rewrite (Hwk k s' Hin). split; [done|].
    unfold onlineIn in Hon. cbn [fst] in Hon. by apply Is_true_true.
  - intros [Hs Hon]. exists (name s, s). split; [done|].
    apply list_elem_of_filter. split.
    + unfold onlineIn. cbn [fst]. by apply Is_true_true.
    + by apply elem_of_map_to_list.
Qed.

(** *** Which errors the methods throw *)

Lemma fb_unregister_throws n w e :
  fst (unregister env n w) = Throw e ->
  e = ServiceNotFoundError n \/ exists m, e = RegistryUnavailableError m.
Proof.
  intros H.
  refine (fb_method_throws _ _
            (fun e => e = ServiceNotFoundError n \/ exists m, e = RegistryUnavailableError m)
            w e _ _ H).
  - intros fw. apply NodeExtras.unregister_throws.
  - intros w0 H0. apply tryCatch_wraps in H0 as [e0 ->]. right. by eexists.
Qed.

Lemma fb_discover_unavailable n options w e :
  fst (discover env config n options w) = Throw e ->
  exists m, e = RegistryUnavailableError m.
Proof.
  intros H.
  refine (fb_method_throws _ _ (fun e => exists m, e = RegistryUnavailableError m)
            w e _ _ H).
  - intros fw. apply NodeExtras.discoverLoop_unavailable.
  - intros w0 H0. apply tryCatch_wraps in H0 as [e0 ->]. by eexists.
Qed.

Lemma fb_listServices_unavailable w e :
  fst (listServices env w) = Throw e -> exists m, e = RegistryUnavailableError m.
Proof.
  intros H.
  refine (fb_method_throws _ _ (fun e => exists m, e = RegistryUnavailableError m)
            w e _ _ H).
  - intros fw H0. apply tryCatch_wraps in H0 as [e0 ->]. by eexists.
  - intros w0 H0. apply tryCatch_wraps in H0 as [e0 ->]. by eexists.
Qed.

Lemma fb_cleanupLoop_throws l :
  forall w e,
    fst (cleanupLoop env l w) = Throw e ->
    (exists k, e = ServiceNotFoundError k) \/ exists m, e = RegistryUnavailableError m.
Proof.
  assert (forall n w e, fst (unregister env n w) = Throw e ->
            (exists k, e = ServiceNotFoundError k) \/ exists m, e = RegistryUnavailableError m)
    as Hun.
  { intros n w e H. destruct (fb_unregister_throws n w e H) as [->|Hm];
      [left; by eexists | by right]. }
  induction l as [|s rest IH]; intros w e; [done|].
  cbn [cleanupLoop]. unfold bind at 1.
  destruct (truthyStr (healthCheckUrl s)); [|apply IH].
  unfold tryCatch. erewrite bind_ok by apply fb_performHealthCheck_run.
  destruct (default false (Node.httpGet (node env) (default "" (healthCheckUrl s))));
    [apply IH|].
  match goal with |- context [unregister env (name s) ?w0] =>
    pose proof (Hun (name s) w0) as H1;
    destruct (unregister env (name s) w0) as [[[]|e1] w1] end; [apply IH|].
  pose proof (Hun (name s) w1) as H2.
  destruct (unregister env (name s) w1) as [[[]|e2] w2]; [apply IH|].
  cbn [fst]. intros [= <-]. by apply H2.
Qed.

End WithEnv.

(** X21: while the event store cannot be reached, [register], [discover],
    [unregister] and [listServices] are the methods of the embedded
    file-backed adapter: each returns or throws what that adapter does on the
    adapter's own file, leaves the file as that adapter leaves it, and makes
    no round trip to the database. *)
Theorem X21_unreachable_store_runs_the_file_adapter env config w :
  isInitialized w = false ->
  initSucceeds env (initAttempts w) = false ->
  (forall n options,
     register env n options w
     = (fst (Node.register (node env) n options (fallback w)),
        onFallback w (snd (Node.register (node env) n options (fallback w))))) /\
  (forall n options,
     discover env config n options w
     = (fst (Node.discover (node env) config n options (fallback w)),
        onFallback w (snd (Node.discover (node env) config n options (fallback w))))) /\
  (forall n,
     unregister env n w
     = (fst (Node.unregister (node env) n (fallback w)),
        onFallback w (snd (Node.unregister (node env) n (fallback w))))) /\
  listServices env w
  = (fst (Node.listServices (node env) (fallback w)),
     onFallback w (snd (Node.listServices (node env) (fallback w)))).
Proof.
  intros Hi Hs. repeat split; intros; by apply fb_on_fallback.
Qed.

Lemma X21_witness :
  discover Examples.storeDown defaultNodeConfig "svc-a" noDiscoverOptions
    (Examples.freshAdapter Examples.worldSvcA)
  = (Ok (Some Examples.svcA),
     onFallback (Examples.freshAdapter Examples.worldSvcA)
       (snd (Node.discover Examples.quietProcess defaultNodeConfig "svc-a" noDiscoverOptions
               Examples.worldSvcA))).
Proof.
  exact (proj1 (proj2 (X21_unreachable_store_runs_the_file_adapter Examples.storeDown
                         defaultNodeConfig (Examples.freshAdapter Examples.worldSvcA)
                         eq_refl eq_refl)) "svc-a" noDiscoverOptions).
Defined.

(** X22: [discover] of a stored record whose presence record is missing or
    says offline returns null and erases the record from the database; the
    presence records are left as they were. *)
Theorem X22_discover_erases_a_record_without_presence env config n options w s :
  primary w ->
  (forall i, (i < 3)%nat -> dbFault env (dbCalls w + i) = None) ->
  servicesDb w !! n = Some s ->
  presentOnline (presenceDb w !! n) = false ->
  exists w1,
    discover env config n options w = (Ok None, w1) /\
    servicesDb w1 = delete n (servicesDb w) /\
    presenceDb w1 = presenceDb w /\
    dbCalls w1 = (dbCalls w + 3)%nat.
Proof. apply fb_discover_offline. Qed.

Lemma X22_witness :
  exists w1,
    discover Examples.storeUp defaultNodeConfig "legacy" noDiscoverOptions Examples.populated
    = (Ok None, w1) /\
    servicesDb w1 = delete "legacy" (servicesDb Examples.populated) /\
    presenceDb w1 = presenceDb Examples.populated /\
    dbCalls w1 = (dbCalls Examples.populated + 3)%nat.
Proof.
  apply (X22_discover_erases_a_record_without_presence Examples.storeUp defaultNodeConfig
           "legacy" noDiscoverOptions Examples.populated Examples.legacy);
    [by split | intros i _; reflexivity | reflexivity | reflexivity].
Defined.



(** X24: [register] is not atomic.  If the round trip that writes the
    record succeeds and a later round trip of the same call fails, [register]
    throws RegistryUnavailableError, yet the record stays in the database,
    without a presence record of this call and without being tracked as the
    current service.  If no presence record existed, the next [discover] of
    the name returns null and erases the record. *)
Theorem X24_register_failing_after_its_first_write env config n options w msg :
  primary w ->
  dbFault env (dbCalls w) = None ->
  (dbFault env (S (dbCalls w)) = Some msg \/
   dbFault env (S (dbCalls w)) = None /\ dbFault env (S (S (dbCalls w))) = Some msg) ->
  exists w1,
    register env n options w
    = (Throw (RegistryUnavailableError
                ("Failed to register service '" +:+ n +:+ "' with Firebase: " +:+ msg)),
       w1) /\
    servicesDb w1 !! n = Some (newServiceInfo env n options (Node.clock (fallback w))) /\
    presenceDb w1 = presenceDb w /\
    currentServiceName w1 = currentServiceName w /\
    (presentOnline (presenceDb w !! n) = false ->
     (forall i, (i < 3)%nat -> dbFault env (dbCalls w1 + i) = None) ->
     forall options', exists w2,
       discover env config n options' w1 = (Ok None, w2) /\ servicesDb w2 !! n = None).
Proof.
  intros Hp H0 Hlater.
  assert (exists w1,
    register env n options w
    = (Throw (RegistryUnavailableError
                ("Failed to register service '" +:+ n +:+ "' with Firebase: " +:+ msg)),
       w1) /\
    servicesDb w1 !! n = Some (newServiceInfo env n options (Node.clock (fallback w))) /\
    presenceDb w1 = presenceDb w /\
    currentServiceName w1 = currentServiceName w /\ primary w1) as (w1 & E & Hs & Hpr & Hc & Hp1).
  { unfold register. rewrite fb_on_primary by done.
    unfold tryCatch, bind at 1, now at 1.
    unfold setServiceDb, armDisconnect, setPresenceDb, setCurrent, bind, dbCall, throw.
    rewrite H0. cbn [dbCalls update].
    destruct Hlater as [H1|[H1 H2]].
    - rewrite H1. eexists. split; [reflexivity|]. cbn.
      rewrite lookup_insert_eq. repeat split; apply Hp.
    - rewrite H1. cbn [dbCalls update]. rewrite H2.
      eexists. split; [reflexivity|]. cbn.
      rewrite lookup_insert_eq. repeat split; apply Hp. }
  exists w1. split; [exact E|]. split; [exact Hs|]. split; [exact Hpr|]. split; [exact Hc|].
  intros Hoff Hf options'.
  destruct (fb_discover_offline env config n options' w1 _ Hp1 Hf Hs) as (w2 & Ed & Hs2 & _).
  { by rewrite Hpr. }
  exists w2. split; [exact Ed|]. rewrite Hs2. apply lookup_delete_eq.
Qed.

Lemma X24_witness :
  exists w1,
    register Examples.storeSecondCallFails "svc-a" Examples.optionsA Examples.connected
    = (Throw (RegistryUnavailableError
                "Failed to register service 'svc-a' with Firebase: PERMISSION_DENIED"), w1) /\
    servicesDb w1 !! "svc-a"
    = Some (newServiceInfo Examples.storeSecondCallFails "svc-a" Examples.optionsA 1000).
Proof.
  destruct (X24_register_failing_after_its_first_write Examples.storeSecondCallFails
              defaultNodeConfig "svc-a" Examples.optionsA Examples.connected
              "PERMISSION_DENIED" ltac:(by split) eq_refl (or_introl eq_refl))
    as (w1 & E & Hs & _).
  exists w1. split; [exact E | exact Hs].
Defined.



(** X26: the errors of the event-store adapter, on either store.
    [register], [discover] and [listServices] throw nothing but
    RegistryUnavailableError; [unregister] may also throw
    ServiceNotFoundError for its own name; [checkHealth] throws
    ServiceNotFoundError for its own name or RegistryUnavailableError and,
    having no retry loop, never HealthCheckError; [cleanup] throws
    ServiceNotFoundError or RegistryUnavailableError. *)
Theorem X26_event_store_adapter_error_kinds :
  forall (env : Env) (config : ServiceRegistryConfig) (n : string) (w : World)
         (e : RegistryError),
    (forall options, fst (register env n options w) = Throw e ->
       exists m, e = RegistryUnavailableError m) /\
    (forall options, fst (discover env config n options w) = Throw e ->
       exists m, e = RegistryUnavailableError m) /\
    (fst (listServices env w) = Throw e -> exists m, e = RegistryUnavailableError m) /\
    (fst (unregister env n w) = Throw e ->
       e = ServiceNotFoundError n \/ exists m, e = RegistryUnavailableError m) /\
    (forall options, fst (checkHealth env config n options w) = Throw e ->
       e = ServiceNotFoundError n \/ exists m, e = RegistryUnavailableError m) /\
    (fst (cleanup env w) = Throw e ->
       (exists k, e = ServiceNotFoundError k) \/ exists m, e = RegistryUnavailableError m).
Proof.
  intros env config n w e. split; [|split; [|split; [|split; [|split]]]].
  - intros options H.
    refine (fb_method_throws env _ _ (fun e => exists m, e = RegistryUnavailableError m)
              w e _ _ H).
    + intros fw H0. apply tryCatch_wraps in H0 as [e0 ->]. by eexists.
    + intros w0 H0. apply tryCatch_wraps in H0 as [e0 ->]. by eexists.
  - intros options. apply fb_discover_unavailable.
  - apply fb_listServices_unavailable.
  - apply fb_unregister_throws.
  - intros options. unfold checkHealth, bind.
    pose proof (fb_discover_unavailable env config n noDiscoverOptions w) as Hd.
    destruct (discover env config n noDiscoverOptions w) as [[[s|]|e0] w0].
    + by destruct (truthyStr (healthCheckUrl s)).
    + cbn. intros [= <-]. by left.
    + cbn. intros [= <-]. right. by apply Hd.
  - unfold cleanup, bind.
    pose proof (fb_listServices_unavailable env w) as Hl.
    destruct (listServices env w) as [[l|e0] w0].
    + apply fb_cleanupLoop_throws.
    + cbn. intros [= <-]. right. by apply Hl.
Qed.

(** X27: [discover] with [includeHealth], against the event store, of an
    online record with a health-check URL: it probes once and, when the
    write succeeds, returns the record with the verdict and writes the
    verdict to the stored record; when the write fails, it returns the
    record marked unhealthy, whatever the probe said, and the stored record
    stays as it was. *)
Theorem X27_event_store_discover_with_health env config n options w s :
  primary w ->
  dbFault env (dbCalls w) = None ->
  dbFault env (S (dbCalls w)) = None ->
  servicesDb w !! n = Some s ->
  presentOnline (presenceDb w !! n) = true ->
  d_includeHealth options = Some true ->
  truthyStr (healthCheckUrl s) = true ->
  let h := default false (Node.httpGet (node env) (default "" (healthCheckUrl s))) in
  let t := Node.clock (fallback w) in
  (dbFault env (S (S (dbCalls w))) = None ->
   exists w1,
     discover env config n options w = (Ok (Some (Node.setHealth s h t)), w1) /\
     servicesDb w1 = <[n := Node.setHealth s h t]> (servicesDb w) /\
     filter isHealthProbe (trace w1)
     = EvHealthProbe (default "" (healthCheckUrl s)) :: filter isHealthProbe (trace w)) /\
  (dbFault env (S (S (dbCalls w))) <> None ->
   exists w1,
     discover env config n options w = (Ok (Some (Node.setHealth s false t)), w1) /\
     servicesDb w1 = servicesDb w).
Proof.
  intros Hp H0 H1 Hs Hon Hih Hu h t.
  assert (forall w1 r,
    tryCatch
      (do h <- performHealthCheck env (default "" (healthCheckUrl s))
                 (if truthyNum (d_timeout options) then default 0 (d_timeout options)
                  else healthCheckTimeout config);
       do t <- now;
       updateHealthDb env n h t ;;
       ret (Some (Node.setHealth s h t)))
      (fun _ => do t <- now; ret (Some (Node.setHealth s false t)))
      (dbTicked "once" ("presence/" +:+ n) (dbTicked "once" ("services/" +:+ n) w))
    = (Ok r, w1) ->
    discover env config n options w = (Ok r, w1)) as Hstep.
  { intros w1 r E. unfold discover. rewrite fb_on_primary by done.
    apply tryCatch_ok.
    erewrite bind_ok by (by apply getServiceDb_ok). rewrite Hs.
    erewrite bind_ok by (by apply getPresenceDb_ok).
    cbn [presenceDb dbTicked]. rewrite Hon, Hih, Hu. exact E. }
  split.
  - intros H2. eexists. split.
    { apply Hstep. unfold tryCatch, bind, performHealthCheck, emit, ret, now,
        updateHealthDb, bind, dbCall.
      cbn [dbCalls dbTicked]. rewrite H2. reflexivity. }
    cbn. rewrite Hs. by split.
  - intros H2. eexists. split.
    { apply Hstep. unfold tryCatch, bind, performHealthCheck, emit, ret, now,
        updateHealthDb, bind, dbCall.
      cbn [dbCalls dbTicked].
      destruct (dbFault env (S (S (dbCalls w)))); [reflexivity | done]. }
    reflexivity.
Qed.

Lemma X27_witness :
  exists w1,
    discover Examples.storeUpHealthDown defaultNodeConfig "svc-a"
      (mkDiscoverOptions None None (Some true)) Examples.populated
    = (Ok (Some (Node.setHealth Examples.svcA false 1000)), w1) /\
    servicesDb w1
    = <["svc-a" := Node.setHealth Examples.svcA false 1000]> (servicesDb Examples.populated).
Proof.
  destruct (proj1 (X27_event_store_discover_with_health Examples.storeUpHealthDown
                     defaultNodeConfig "svc-a" (mkDiscoverOptions None None (Some true))
                     Examples.populated Examples.svcA ltac:(by split)
                     eq_refl eq_refl eq_refl eq_refl eq_refl eq_refl) eq_refl)
    as (w1 & E & Hs & _).
  exists w1. split; [exact E | exact Hs].
Defined.

(** X28: [cleanup] against the event store, when every record is stored
    under its own name: it returns, and the database afterwards holds
    exactly the records that were online and that have no health-check URL
    or whose health endpoint answers [ok].  The age of a record plays no
    role. *)
Theorem X28_event_store_cleanup_keeps_online_records_that_pass env w :
  primary w -> noDbFaults env -> wellKeyed (servicesDb w) ->
  exists w2,
    cleanup env w = (Ok tt, w2) /\
    forall k,
      servicesDb w2 !! k
      = match servicesDb w !! k with
        | Some s =>
            if presentOnline (presenceDb w !! k) && passesProbe env s then Some s else None
        | None => None
        end.
Proof.
  intros Hp Hno Hwk.
  destruct (fb_listServices_run env w Hp Hno) as (w1 & E1 & Hs1 & _ & Hp1 & _).
  destruct (fb_cleanupLoop_run env
              (map snd (filter (onlineIn (presenceDb w)) (map_to_list (servicesDb w))))
              Hno w1 Hp1) as (w2 & E2 & Hs2 & _).
  exists w2. split.
  { unfold cleanup. erewrite bind_ok by exact E1. exact E2. }
  intros k. rewrite Hs2.
  destruct (servicesDb w !! k) as [s|] eqn:Hk.
  - pose proof (Hwk k s Hk) as Hname.
    destruct (presentOnline (presenceDb w !! k)) eqn:Hon; cbn [andb].
    + destruct (passesProbe env s) eqn:Hpass.
      * rewrite pruneFailing_keep; [by rewrite Hs1, Hon|].
        intros s' Hin Hk'. apply online_listed in Hin as [Hin _]; [|done].
        rewrite Hk' in Hin. congruence.
      * apply (pruneFailing_hit env _ k s); [|done|done].
        apply online_listed; [done|]. by rewrite Hname.
    + apply pruneFailing_gone. by rewrite Hs1, Hon.
  - apply pruneFailing_gone. rewrite Hs1, Hk. by destruct (presentOnline _).
Qed.

Lemma X28_witness :
  exists w2,
    cleanup Examples.storeUpHealthDown Examples.populated = (Ok tt, w2) /\
    servicesDb w2 !! "svc-a" = None.
Proof.
  destruct (X28_event_store_cleanup_keeps_online_records_that_pass
              Examples.storeUpHealthDown Examples.populated) as (w2 & E & Hs).
  - by split.
  - intros k. reflexivity.
  - intros k s H. cbn in H.
    apply lookup_insert_Some in H as [[<- <-]|[_ H]]; [reflexivity|].
    apply lookup_singleton_Some in H as [<- <-]. reflexivity.
  - exists w2. split; [exact E | exact (Hs "svc-a")].
Defined.

End FirebaseExtras.

(** ** Sanitisation, continued *)

Module SanitizeExtras.
Import Sanitize SanitizeFacts.

Lemma dash_inKeyClass c : isDash c = true -> inKeyClass c = true.
Proof. intros H. apply isDash_true in H as ->. reflexivity. Qed.



(** *** What each step preserves *)

Lemma replaceInvalid_allKey s : allKeyClass (specReplaceInvalid s) = true.
Proof.
  unfold specReplaceInvalid. induction s as [|c s IH]; [done|].
  cbn [mapStr allKeyClass]. rewrite IH, andb_true_r.
  destruct (inKeyClass c) eqn:Hc; [exact Hc | reflexivity].
Qed.

Lemma collapse_allKey s : allKeyClass s = true -> allKeyClass (specCollapse s) = true.
Proof.
  induction s as [|c s IH]; [done|]. cbn [allKeyClass]. intros H.
  apply andb_true_iff in H as [Hc Hs].
  change (specCollapse (String c s)) with
    (if isDash c && (match s with String c' _ => isDash c' | _ => false end)
     then specCollapse s else String c (specCollapse s)).
  destruct (isDash c && _); [by apply IH|].
  cbn [allKeyClass]. by rewrite Hc, IH.
Qed.

Lemma trimLeft_allKey s : allKeyClass s = true -> allKeyClass (trimLeft s) = true.
Proof.
  induction s as [|c s IH]; [done|]. cbn [allKeyClass trimLeft]. intros H.
  destruct (isDash c); [|exact H]. apply andb_true_iff in H as [_ Hs]. by apply IH.
Qed.

Lemma trimRight_allKey s : allKeyClass s = true -> allKeyClass (trimRight s) = true.
Proof.
  induction s as [|c s IH]; [done|]. cbn [allKeyClass trimRight]. intros H.
  apply andb_true_iff in H as [Hc Hs]. specialize (IH Hs).
  destruct (trimRight s) as [|c' t].
  - destruct (isDash c); [done|]. cbn. by rewrite Hc.
  - cbn [allKeyClass] in *. by rewrite Hc, IH.
Qed.

Lemma takeStr_allKey n s : allKeyClass s = true -> allKeyClass (takeStr n s) = true.
Proof.
  revert s. induction n as [|n IH]; intros [|c s]; cbn [takeStr allKeyClass]; try done.
  intros H. apply andb_true_iff in H as [Hc Hs]. by rewrite Hc, IH.
Qed.

Lemma trimLeft_noDouble s : noDoubleDash s = true -> noDoubleDash (trimLeft s) = true.
Proof.
  induction s as [|c s IH]; [done|]. cbn [trimLeft]. intros H.
  destruct (isDash c); [|exact H].
  cbn [noDoubleDash] in H. apply andb_true_iff in H as [_ Hs]. by apply IH.
Qed.

Lemma trimRight_noDouble s : noDoubleDash s = true -> noDoubleDash (trimRight s) = true.
Proof.
  induction s as [|c s IH]; [done|]. intros H.
  cbn [noDoubleDash] in H. apply andb_true_iff in H as [Hh Hs]. specialize (IH Hs).
  cbn [trimRight]. destruct (trimRight s) as [|c' t] eqn:Ht.
  - destruct (isDash c); [done|]. cbn. by rewrite andb_false_r.
  - change (noDoubleDash (String c (String c' t)))
      with (negb (isDash c && isDash c') && noDoubleDash (String c' t)).
    rewrite IH, andb_true_r.
    destruct s as [|c0 s0]; [done|].
    assert (c' = c0) as ->.
    { revert Ht. cbn [trimRight]. destruct (trimRight s0); [destruct (isDash c0)|];
        congruence. }
    exact Hh.
Qed.

Lemma takeStr_noDouble n s : noDoubleDash s = true -> noDoubleDash (takeStr n s) = true.
Proof.
  revert s. induction n as [|n IH]; intros [|c s]; try done.
  intros H. cbn [noDoubleDash] in H. apply andb_true_iff in H as [Hh Hs].
  cbn [takeStr noDoubleDash]. rewrite (IH s Hs), andb_true_r.
  destruct n as [|n]; [cbn; by rewrite andb_false_r|].
  destruct s as [|c' s']; [cbn; by rewrite andb_false_r|]. exact Hh.
Qed.

Lemma trimLeft_start s : startsWithDash (trimLeft s) = false.
Proof.
  induction s as [|c s IH]; [done|]. cbn [trimLeft].
  destruct (isDash c) eqn:Hc; [exact IH | exact Hc].
Qed.

Lemma trimRight_start s : startsWithDash s = false -> startsWithDash (trimRight s) = false.
Proof.
  destruct s as [|c s]; [done|]. cbn [startsWithDash]. intros Hc.
  destruct (trimRight_head c s Hc) as [t ->]. exact Hc.
Qed.

Lemma takeStr_start n s : startsWithDash s = false -> startsWithDash (takeStr n s) = false.
Proof. destruct n, s; done. Qed.

Lemma trimRight_end s : endsWithDash (trimRight s) = false.
Proof.
  induction s as [|c s IH]; [done|]. cbn [trimRight].
  destruct (trimRight s) as [|c' t].
  - destruct (isDash c) eqn:Hc; [done | exact Hc].
  - exact IH.
Qed.

(** *** Lengths *)








(** *** The pipeline before truncation *)

Lemma trimmed_shape s :
  allKeyClass (trimmed s) = true /\ noDoubleDash (trimmed s) = true /\
  startsWithDash (trimmed s) = false /\ endsWithDash (trimmed s) = false.
Proof.
  unfold trimmed, specTrim. repeat split.
  - apply trimRight_allKey, trimLeft_allKey, collapse_allKey, replaceInvalid_allKey.
  - apply trimRight_noDouble, trimLeft_noDouble, specCollapse_noDouble.
  - apply trimRight_start, trimLeft_start.
  - apply trimRight_end.
Qed.

(** *** What a well-formed identifier goes through unchanged *)








(** X29: whatever its input, [sanitizeUserId] returns a usable database
    key: it is not empty, every character is in [a-z0-9-_], it does not
    start with a dash, it holds no two dashes in a row, and it has at most
    50 characters. *)
Theorem X29_sanitizeUserId_returns_a_key :
  forall s : string,
    nonEmpty (sanitizeUserId s) = true /\
    allKeyClass (sanitizeUserId s) = true /\
    startsWithDash (sanitizeUserId s) = false /\
    noDoubleDash (sanitizeUserId s) = true /\
    (String.length (sanitizeUserId s) <= 50)%nat.
Proof.
  intros s. split; [|split; [|split; [|split]]]; [| | | |apply sanitize_length];
    rewrite sanitize_refines_spec; unfold specSanitize; fold (trimmed s);
    destruct (trimmed_shape s) as (Hk & Hd & Hs & _);
    pose proof (takeStr_allKey 50 _ Hk) as Hk';
    pose proof (takeStr_noDouble 50 _ Hd) as Hd';
    pose proof (takeStr_start 50 _ Hs) as Hs';
    destruct (takeStr 50 (trimmed s)); done.
Qed.



End SanitizeExtras.
